(** * ski-worldcup-nation-points: the extraction and aggregation core of app.py

    A shallow embedding of the four pure functions of [src/app.py]
    ([extract_event_id_from_url], [_find_result_items],
    [parse_results_from_json], [compute_points_by_nation]) and of the
    constant [FIS_POINTS], followed by the properties the specification
    states about them.

    Conventions of the embedding.
    - A Python [str] in the JSON functions is a Rocq [string]: they only
      compare, concatenate and test strings for emptiness, so any injective
      encoding of the characters serves there.  In
      [extract_event_id_from_url], whose pattern looks at the characters, a
      [str] is the list of its Unicode code points, and the class [\d], the
      decimal digits of Unicode, is a parameter [is_decimal].
    - A Python [int] is a [Z]; a Python [float] is a [spec_float].  The
      int64 cells of the column Points are kept in [Z]: a group's sum is at
      most 100 per row ([group_sum_bounds]), far from the int64 range.
    - A Python [dict] is an association list in insertion order with
      pairwise distinct keys; [dict_get] returns the first binding.
    - An exception is a value [Raise e] of the type [result].
    - Three library functions whose code is not part of the repository are
      parameters of the development: [int] applied to a [str], [str.strip],
      and the argsort behind [DataFrame.sort_values] with its default
      [kind="quicksort"], for which pandas documents no stability. *)

From Stdlib Require Import ZArith List String Ascii Bool Lia Permutation Sorted.
From Stdlib Require Import Floats.SpecFloat.
Import ListNotations.

Local Open Scope Z_scope.
Local Open Scope string_scope.
Local Open Scope list_scope.

(** ** Exceptions *)

Inductive exn : Type :=
| TypeError
| ValueError
| OverflowError
| AttributeError
| KeyError.

Inductive result (A : Type) : Type :=
| Ok (a : A)
| Raise (e : exn).

Arguments Ok {A} a.
Arguments Raise {A} e.

Definition bind {A B : Type} (m : result A) (k : A -> result B) : result B :=
  match m with
  | Ok a => k a
  | Raise e => Raise e
  end.

Notation "x <- m ;; k" := (bind m (fun x => k))
  (at level 61, m at next level, right associativity).

(** ** Python values as produced by [resp.json()] *)

Unset Elimination Schemes.
Inductive json : Type :=
| JNull
| JBool (b : bool)
| JInt (n : Z)
| JFloat (f : spec_float)
| JStr (s : string)
| JList (xs : list json)
| JDict (kvs : list (string * json)).
Set Elimination Schemes.

(** Structural induction on a value, with the induction hypothesis for every
    element of a list and every value of a dict. *)
Section JsonInduction.
Variable P : json -> Prop.
Hypothesis P_null : P JNull.
Hypothesis P_bool : forall b, P (JBool b).
Hypothesis P_int : forall n, P (JInt n).
Hypothesis P_float : forall f, P (JFloat f).
Hypothesis P_str : forall s, P (JStr s).
Hypothesis P_list : forall xs, Forall P xs -> P (JList xs).
Hypothesis P_dict :
  forall kvs, Forall (fun kv => P (snd kv)) kvs -> P (JDict kvs).

Fixpoint json_ind (v : json) : P v :=
  match v with
  | JNull => P_null
  | JBool b => P_bool b
  | JInt n => P_int n
  | JFloat f => P_float f
  | JStr s => P_str s
  | JList xs =>
      P_list xs
        ((fix elements (l : list json) : Forall P l :=
            match l with
            | [] => Forall_nil P
            | x :: l' => Forall_cons x (json_ind x) (elements l')
            end) xs)
  | JDict kvs =>
      P_dict kvs
        ((fix values (l : list (string * json))
            : Forall (fun kv => P (snd kv)) l :=
            match l with
            | [] => Forall_nil _
            | kv :: l' => Forall_cons kv (json_ind (snd kv)) (values l')
            end) kvs)
  end.
End JsonInduction.

Section Dict.
Context {K V : Type}.
Variable eqb : K -> K -> bool.

(** [d.get(k)] on the bindings of a dict; [None] when the key is absent. *)
Fixpoint dict_get (d : list (K * V)) (k : K) : option V :=
  match d with
  | [] => None
  | (k', v) :: d' => if eqb k k' then Some v else dict_get d' k
  end.

(** [k in d.keys()] *)
Definition dict_has (d : list (K * V)) (k : K) : bool :=
  existsb (eqb k) (map fst d).
End Dict.

(** ** The points table *)

(** Weltcup-Punkteschema für Plätze 1–30 *)
Definition FIS_POINTS : list (Z * Z) :=
  [ (1, 100); (2, 80); (3, 60); (4, 50); (5, 45);
    (6, 40); (7, 36); (8, 32); (9, 29); (10, 26);
    (11, 24); (12, 22); (13, 20); (14, 18); (15, 16);
    (16, 15); (17, 14); (18, 13); (19, 12); (20, 11);
    (21, 10); (22, 9); (23, 8); (24, 7); (25, 6);
    (26, 5); (27, 4); (28, 3); (29, 2); (30, 1) ].

(** One cell of [df["Rank"].map(FIS_POINTS).fillna(0).astype(int)]: the
    table's value, and 0 where the rank is not a key of the table. *)
Definition rank_points (rank : Z) : Z :=
  match dict_get Z.eqb FIS_POINTS rank with
  | Some p => p
  | None => 0
  end.

(** ** Identifier extractor *)

(** A [str] as the regular expression reads it: the list of its Unicode
    code points.  [codepoints] gives that list for a text written in ASCII,
    such as the literals of the pattern. *)
Definition codepoints (s : string) : list N :=
  map N_of_ascii (list_ascii_of_string s).

(** The rest of [s] after the literal [lit], when [s] starts with it. *)
Fixpoint strip_literal (lit s : list N) : option (list N) :=
  match lit, s with
  | [], _ => Some s
  | a :: lit', b :: s' => if N.eqb a b then strip_literal lit' s' else None
  | _ :: _, [] => None
  end.

Section Extractor.
(** The class [\d] of a [str] pattern: the decimal digits of Unicode, a
    table of the interpreter. *)
Variable is_decimal : N -> bool.

(** The greedy [\d*] at the head of [s]. *)
Fixpoint digit_run (s : list N) : list N :=
  match s with
  | c :: s' => if is_decimal c then c :: digit_run s' else []
  | [] => []
  end.

(** One alternative of the group followed by [(\d+)], anchored at the head
    of [s]; the result is group 1. *)
Definition match_alternative (marker s : list N) : option (list N) :=
  match strip_literal marker s with
  | Some rest =>
      match digit_run rest with
      | [] => None
      | g => Some g
      end
  | None => None
  end.

(** [(?:/event/|/sportevents/)(\d+)] anchored at the head of [s]: the
    alternatives are tried from left to right. *)
Definition match_here (s : list N) : option (list N) :=
  match match_alternative (codepoints "/event/") s with
  | Some g => Some g
  | None => match_alternative (codepoints "/sportevents/") s
  end.

(** [re.search]: the match at the leftmost position that has one. *)
Fixpoint re_search (s : list N) : option (list N) :=
  match match_here s with
  | Some g => Some g
  | None =>
      match s with
      | _ :: s' => re_search s'
      | [] => None
      end
  end.

Definition extract_event_id_from_url (url : list N) : result (list N) :=
  match re_search url with
  | None => Raise ValueError
  | Some g => Ok g
  end.
End Extractor.

(** The words of the specification, for comparison with the code: [g] is
    the whole run of decimal digits that directly follows a marker standing
    at the head of [s]. *)
Definition is_marker (m : list N) : Prop :=
  m = codepoints "/event/" \/ m = codepoints "/sportevents/".

Definition all_digits (is_decimal : N -> bool) (s : list N) : Prop :=
  Forall (fun c => is_decimal c = true) s.

Definition starts_with_digit (is_decimal : N -> bool) (s : list N) : Prop :=
  exists c s', s = c :: s' /\ is_decimal c = true.

Definition marker_then_digits (is_decimal : N -> bool) (s g : list N)
  : Prop :=
  exists m rest,
    is_marker m /\ s = m ++ g ++ rest
    /\ g <> [] /\ all_digits is_decimal g
    /\ ~ starts_with_digit is_decimal rest.

(** What every table of decimal digits holds below 128: the ten characters
    ['0'] to ['9'], code points 48 to 57, and no other. *)
Definition ascii_decimals (is_decimal : N -> bool) : Prop :=
  forall c, (c < 128)%N -> (is_decimal c = true <-> (48 <= c <= 57)%N).

(** Two such tables for the examples: the ASCII digits alone, and the ASCII
    digits with the ARABIC-INDIC digits U+0660 to U+0669. *)
Definition decimal_ascii_only (c : N) : bool :=
  (N.leb 48 c && N.leb c 57)%bool.

Definition decimal_with_arabic_indic (c : N) : bool :=
  (decimal_ascii_only c || (N.leb 1632 c && N.leb c 1641))%bool.

(** ** Record discoverer *)

Definition rank_keys : list string := ["rank"; "position"; "place"].
Definition nation_keys : list string :=
  ["nation"; "nationShort"; "countryCode"; "country"].

Fixpoint _find_result_items (obj : json) : list json :=
  match obj with
  | JDict kvs =>
      let has_rank := existsb (dict_has String.eqb kvs) rank_keys in
      let has_nation := existsb (dict_has String.eqb kvs) nation_keys in
      let found := if has_rank && has_nation then [obj] else [] in
      fold_left (fun found kv => found ++ _find_result_items (snd kv)) kvs found
  | JList xs =>
      fold_left (fun found item => found ++ _find_result_items item) xs []
  | _ => []
  end.

(** The words of the specification, for comparison with the code: every
    node of the tree in the order of a depth-first walk, a node before its
    children, and the test that makes an object a candidate. *)
Fixpoint dfs_preorder (v : json) : list json :=
  v :: match v with
       | JDict kvs => flat_map (fun kv => dfs_preorder (snd kv)) kvs
       | JList xs => flat_map dfs_preorder xs
       | _ => []
       end.

Definition is_candidate (v : json) : bool :=
  match v with
  | JDict kvs =>
      existsb (fun k => existsb (String.eqb k) rank_keys) (map fst kvs)
      && existsb (fun k => existsb (String.eqb k) nation_keys) (map fst kvs)
  | _ => false
  end.

(** ** Python built-ins used by the normalizer *)

(** [obj.get(key, default)]; only a dict has the method. *)
Definition py_get (obj : json) (key : string) (default : json) : result json :=
  match obj with
  | JDict kvs =>
      Ok (match dict_get String.eqb kvs key with
          | Some v => v
          | None => default
          end)
  | _ => Raise AttributeError
  end.

(** The items a [for] loop draws from a value: the elements of a list, the
    characters of a str, the keys of a dict; other values are not iterable. *)
Definition py_iter (v : json) : result (list json) :=
  match v with
  | JList xs => Ok xs
  | JStr s => Ok (map (fun c => JStr (String c "")) (list_ascii_of_string s))
  | JDict kvs => Ok (map (fun kv => JStr (fst kv)) kvs)
  | _ => Raise TypeError
  end.

(** Truth value of a value, as tested by [not], [or] and [if]. *)
Definition truthy (v : json) : bool :=
  match v with
  | JNull => false
  | JBool b => b
  | JInt n => negb (Z.eqb n 0)
  | JFloat (S754_zero _) => false
  | JFloat _ => true
  | JStr s => negb (String.eqb s "")
  | JList xs => negb (Nat.eqb (List.length xs) 0)
  | JDict kvs => negb (Nat.eqb (List.length kvs) 0)
  end.

(** [x or y] *)
Definition py_or (x y : json) : json := if truthy x then x else y.

(** [x + y] where one operand is known to be a str: the concatenation when
    both are, a TypeError otherwise. *)
Definition py_add_str (x y : json) : result string :=
  match x, y with
  | JStr a, JStr b => Ok (a ++ b)%string
  | _, _ => Raise TypeError
  end.

(** [int(f)] for a float: the value [(-1)^s * m * 2^e] with its fractional
    part dropped; NaN is a ValueError and an infinity an OverflowError. *)
Definition int_of_float (f : spec_float) : result Z :=
  match f with
  | S754_zero _ => Ok 0
  | S754_infinity _ => Raise OverflowError
  | S754_nan => Raise ValueError
  | S754_finite s m e =>
      let magnitude :=
        if Z.leb 0 e then Z.shiftl (Z.pos m) e else Z.shiftr (Z.pos m) (- e) in
      Ok (if s then - magnitude else magnitude)
  end.


(** ** Tabular data *)

(** A [DataFrame] as the list of its rows.  [pd.DataFrame([])] has no
    columns at all and is kept apart from a frame that has its columns and
    no rows.  Index labels are not modelled, so [reset_index(drop=True)]
    and [df.copy()] leave the model unchanged. *)
Inductive DataFrame (R : Type) : Type :=
| NoColumns
| Frame (rows : list R).

Arguments NoColumns {R}.
Arguments Frame {R} rows.

Definition frame_rows {R : Type} (df : DataFrame R) : list R :=
  match df with
  | NoColumns => []
  | Frame rows => rows
  end.

(** [pd.DataFrame(rows)] for a list of records with the same keys *)
Definition DataFrame_of_records {R : Type} (rows : list R) : DataFrame R :=
  match rows with
  | [] => NoColumns
  | _ :: _ => Frame rows
  end.

(** [df.empty] *)
Definition df_empty {R : Type} (df : DataFrame R) : bool :=
  match frame_rows df with
  | [] => true
  | _ :: _ => false
  end.

(** A row with the columns Rank, Nation and Name; [V] is the type of the
    cells of the two object columns. *)
Record Row (V : Type) : Type := mkRow { Rank : Z; Nation : V; Name : V }.

Arguments mkRow {V} Rank Nation Name.
Arguments Rank {V} r.
Arguments Nation {V} r.
Arguments Name {V} r.

(** A row of the aggregator's output, with the columns Nation and Points. *)
Record NationTotal : Type := mkTotal { by_Nation : string; Points : Z }.

(** [l.take(indexer)]: the elements of [l] at the positions [indexer], in
    that order.  An indexer produced by an argsort of [l] is within range. *)
Definition take {A : Type} (l : list A) (indexer : list nat) : list A :=
  flat_map (fun i => match nth_error l i with
                     | Some a => [a]
                     | None => []
                     end) indexer.

(** The order a sort on an integer column establishes between neighbours. *)
Definition key_order (ascending : bool) (a b : Z) : Prop :=
  if ascending then a <= b else b <= a.

Fixpoint Zsum (l : list Z) : Z :=
  match l with
  | [] => 0
  | x :: l' => x + Zsum l'
  end.

Section InsertionSort.
Context {A : Type}.
Variable before : A -> A -> bool.

Fixpoint insert_sorted (x : A) (l : list A) : list A :=
  match l with
  | [] => [x]
  | y :: l' => if before x y then x :: l else y :: insert_sorted x l'
  end.

Definition insertion_sort (l : list A) : list A :=
  fold_right insert_sorted [] l.
End InsertionSort.

(** [groupby("Nation", as_index=False)["Points"].sum()] on the pairs
    (Nation, Points) of a frame: one row per distinct key, the keys in
    ascending order (the default [sort=True]), each with the sum of the
    points of its rows. *)
Definition group_sum (pairs : list (string * Z)) (key : string) : Z :=
  Zsum (map snd (filter (fun p => String.eqb (fst p) key) pairs)).

Definition group_keys (pairs : list (string * Z)) : list string :=
  insertion_sort String.leb (nodup string_dec (map fst pairs)).

Definition groupby_sum (pairs : list (string * Z)) : list NationTotal :=
  map (fun key => mkTotal key (group_sum pairs key)) (group_keys pairs).

(** The columns Nation and Points of the copy of the frame, after
    [df["Points"] = df["Rank"].map(FIS_POINTS).fillna(0).astype(int)]. *)
Definition with_points (rows : list (Row string)) : list (string * Z) :=
  map (fun r => (Nation r, rank_points (Rank r))) rows.

Section Runtime.
(** [int(s)] for a str [s]: [None] stands for the ValueError. *)
Variable int_of_str : string -> option Z.
(** [s.strip()] *)
Variable str_strip : string -> string.
(** The indexer [sort_values] computes for an integer column with
    [kind="quicksort"]: [nargsort keys ascending]. *)
Variable nargsort : list Z -> bool -> list nat.

(** [int(v)] *)
Definition py_int (v : json) : result Z :=
  match v with
  | JNull => Raise TypeError
  | JBool b => Ok (if b then 1 else 0)
  | JInt n => Ok n
  | JFloat f => int_of_float f
  | JStr s =>
      match int_of_str s with
      | Some n => Ok n
      | None => Raise ValueError
      end
  | JList _ => Raise TypeError
  | JDict _ => Raise TypeError
  end.

(** [df.sort_values(by, ascending=...)] on an integer column *)
Definition sort_values {A : Type} (by_ : A -> Z) (ascending : bool)
    (rows : list A) : list A :=
  take rows (nargsort (map by_ rows) ascending).

(** ** Result normalizer *)

(** The [try] statement of the loop: [Ok None] is the [continue] of the
    handler, which catches TypeError and ValueError only. *)
Definition try_int (rank_val : json) : result (option Z) :=
  match py_int rank_val with
  | Ok rank => Ok (Some rank)
  | Raise TypeError => Ok None
  | Raise ValueError => Ok None
  | Raise e => Raise e
  end.

(** The expression assigned to [name]. *)
Definition item_name (item : json) : result json :=
  display <- py_get item "DisplayName" JNull ;;
  if truthy display then Ok display
  else
    first <- py_get item "FirstName" JNull ;;
    prefix <- py_add_str (py_or first (JStr "")) (JStr " ") ;;
    last <- py_get item "LastName" JNull ;;
    full <- py_add_str (JStr prefix) (py_or last (JStr "")) ;;
    Ok (JStr (str_strip full)).

(** One pass through the body of the loop: [Ok None] when the item is
    skipped by a [continue], [Ok (Some row)] when a row is appended. *)
Definition loop_body (item : json) : result (option (Row json)) :=
  rank_val <- py_get item "RankingFinal" JNull ;;
  converted <- try_int rank_val ;;
  match converted with
  | None => Ok None
  | Some rank =>
      if negb (Z.leb 1 rank && Z.leb rank 30) then Ok None
      else
        nation <- py_get item "NationCC3" JNull ;;
        if negb (truthy nation) then Ok None
        else
          name <- item_name item ;;
          Ok (Some (mkRow rank nation name))
  end.

(** The loop, threading the list [rows]. *)
Fixpoint for_items (items : list json) (rows : list (Row json))
  : result (list (Row json)) :=
  match items with
  | [] => Ok rows
  | item :: rest =>
      appended <- loop_body item ;;
      for_items rest (match appended with
                      | Some row => rows ++ [row]
                      | None => rows
                      end)
  end.

Definition parse_results_from_json (data : json)
  : result (DataFrame (Row json)) :=
  results <- py_get data "Results" (JList []) ;;
  items <- py_iter results ;;
  rows <- for_items items [] ;;
  let df := DataFrame_of_records rows in
  if df_empty df then Ok df
  else Ok (Frame (sort_values Rank true (frame_rows df))).

(** ** Points aggregator *)

Definition compute_points_by_nation (df : DataFrame (Row string))
  : result (DataFrame NationTotal) :=
  match df with
  | NoColumns => Raise KeyError
  | Frame rows =>
      let by_nat := groupby_sum (with_points rows) in
      Ok (Frame (sort_values Points false by_nat))
  end.
End Runtime.

(** ** The guarantees of the argsort

    What the sort promises: its indexer is a rearrangement of the positions
    of the column, and the column read through it is in order.  Nothing is
    promised about the positions of equal keys. *)

Definition argsort_permutes (nargsort : list Z -> bool -> list nat) : Prop :=
  forall keys ascending,
    Permutation (nargsort keys ascending) (seq 0 (List.length keys)).

Definition argsort_orders (nargsort : list Z -> bool -> list nat) : Prop :=
  forall keys ascending,
    Sorted (key_order ascending) (take keys (nargsort keys ascending)).

(** Two sorts that keep these promises, used in the examples.  Among equal
    keys the first lists the earlier position first, the second the later
    position first. *)
Definition key_before (strict ascending : bool) (p q : nat * Z) : bool :=
  let a := if ascending then snd p else snd q in
  let b := if ascending then snd q else snd p in
  if strict then Z.ltb a b else Z.leb a b.

Definition argsort_by (strict : bool) (keys : list Z) (ascending : bool)
  : list nat :=
  map fst (insertion_sort (key_before strict ascending)
             (combine (seq 0 (List.length keys)) keys)).

Definition nargsort_first_first : list Z -> bool -> list nat :=
  argsort_by false.
Definition nargsort_last_first : list Z -> bool -> list nat :=
  argsort_by true.

(** An ASCII digit. *)
Definition is_digit (c : ascii) : bool :=
  (Ascii.leb "0" c && Ascii.leb c "9")%char.

(** A reading of [int(s)] for the examples: a plain decimal numeral of
    ASCII digits with an optional minus sign. *)
Fixpoint decimal_value (s : string) (acc : Z) : option Z :=
  match s with
  | EmptyString => Some acc
  | String c s' =>
      if is_digit c
      then decimal_value s' (10 * acc + (Z.of_nat (nat_of_ascii c) - 48))
      else None
  end.

Definition int_of_decimal (s : string) : option Z :=
  match s with
  | EmptyString => None
  | String "-" EmptyString => None
  | String "-" s' => option_map Z.opp (decimal_value s' 0)
  | _ => decimal_value s 0
  end.

(** A reading of [s.strip()] for the examples: blanks are the ASCII
    whitespace characters. *)
Definition is_blank (c : ascii) : bool :=
  match nat_of_ascii c with
  | 9%nat | 10%nat | 11%nat | 12%nat | 13%nat | 32%nat => true
  | _ => false
  end.

Fixpoint lstrip (cs : list ascii) : list ascii :=
  match cs with
  | c :: cs' => if is_blank c then lstrip cs' else cs
  | [] => []
  end.

Definition strip_blanks (s : string) : string :=
  string_of_list_ascii
    (rev (lstrip (rev (lstrip (list_ascii_of_string s))))).

(** ** The words of the specification, for comparison with the code *)

(** An entry of Results is selected when its RankingFinal converts to an
    integer between 1 and 30 and its NationCC3 is present and non-empty;
    the selection carries that rank and that nation. *)
Definition selection (int_of_str : string -> option Z) (item : json)
  : list (Z * json) :=
  match item with
  | JDict kvs =>
      match dict_get String.eqb kvs "RankingFinal",
            dict_get String.eqb kvs "NationCC3" with
      | Some rank_val, Some nation =>
          match py_int int_of_str rank_val with
          | Ok rank =>
              if Z.leb 1 rank && Z.leb rank 30 && truthy nation
              then [(rank, nation)]
              else []
          | Raise _ => []
          end
      | _, _ => []
      end
  | _ => []
  end.

(** Within every group of equal keys, [l1] and [l2] list the same elements
    in the same order. *)
Definition same_order_within {A : Type} (key : A -> Z) (l1 l2 : list A)
  : Prop :=
  forall k, filter (fun a => Z.eqb (key a) k) l1
          = filter (fun a => Z.eqb (key a) k) l2.

(** A document the normalizer accepts without raising: the Results value,
    when there is one, is a list of objects; no RankingFinal is an infinite
    float; and a selected entry that has no DisplayName has only text or
    nothing as its FirstName and LastName. *)
Definition is_text_or_falsy (v : json) : bool :=
  match v with
  | JStr _ => true
  | _ => negb (truthy v)
  end.

Definition field (kvs : list (string * json)) (key : string) : json :=
  match dict_get String.eqb kvs key with
  | Some v => v
  | None => JNull
  end.

Definition entry_ok (int_of_str : string -> option Z) (item : json) : bool :=
  match item with
  | JDict kvs =>
      match field kvs "RankingFinal" with
      | JFloat (S754_infinity _) => false
      | _ => true
      end
      && (match selection int_of_str item with
          | [] => true
          | _ :: _ => false
          end
          || truthy (field kvs "DisplayName")
          || (is_text_or_falsy (field kvs "FirstName")
              && is_text_or_falsy (field kvs "LastName")))
  | _ => false
  end.

Definition document_ok (int_of_str : string -> option Z) (data : json)
  : bool :=
  match data with
  | JDict kvs =>
      match dict_get String.eqb kvs "Results" with
      | None => true
      | Some (JList items) => forallb (entry_ok int_of_str) items
      | Some _ => false
      end
  | _ => false
  end.

(** The rank and the nation of a row, and the rows one pass through the
    loop body adds. *)
Definition rank_nation {V : Type} (r : Row V) : Z * V := (Rank r, Nation r).

Definition appended_rows {A : Type} (appended : option A) : list A :=
  match appended with
  | Some row => [row]
  | None => []
  end.

(** ** The fetch URL and the frames handed from the normalizer to the
    aggregator *)

(** [API_TEMPLATE.format(event_id=event_id)], the address [fetch_orf_json]
    requests: the template with its field replaced by the text of
    [event_id]. *)
Definition api_url (event_id : list N) : list N :=
  codepoints "https://afeeds.orf.at/alpine-api/api/sportevents/" ++ event_id
  ++ codepoints "?detailtype=end".

(** The points a frame of nation totals holds for a nation, 0 when it has
    no row for it. *)
Definition total_of (nation : string) (totals : list NationTotal) : Z :=
  Zsum (map Points
          (filter (fun t => String.eqb (by_Nation t) nation) totals)).

(** The rows of the normalizer read as rows of text cells, when the Nation
    and Name cells all hold text; this is the frame [df_results] as the
    aggregator is applied to it. *)
Definition text_row (r : Row json) : option (Row string) :=
  match Nation r, Name r with
  | JStr nation, JStr name => Some (mkRow (Rank r) nation name)
  | _, _ => None
  end.

Fixpoint text_rows (rows : list (Row json)) : option (list (Row string)) :=
  match rows with
  | [] => Some []
  | r :: rows' =>
      match text_row r, text_rows rows' with
      | Some t, Some ts => Some (t :: ts)
      | _, _ => None
      end
  end.

Definition text_frame (df : DataFrame (Row json))
  : option (DataFrame (Row string)) :=
  match df with
  | NoColumns => Some NoColumns
  | Frame rows => option_map Frame (text_rows rows)
  end.

(** The keys of an entry the normalizer reads, and two entries that agree
    on them. *)
Definition entry_keys : list string :=
  ["RankingFinal"; "NationCC3"; "DisplayName"; "FirstName"; "LastName"].

Definition same_fields (item item' : json) : Prop :=
  exists kvs kvs',
    item = JDict kvs /\ item' = JDict kvs'
    /\ forall key, In key entry_keys -> field kvs key = field kvs' key.

(** The rows the loop body adds for an item, none when it raises. *)
Definition rows_of_item (int_of_str : string -> option Z)
    (str_strip : string -> string) (item : json) : list (Row json) :=
  match loop_body int_of_str str_strip item with
  | Ok appended => appended_rows appended
  | Raise _ => []
  end.

Definition is_dict (v : json) : bool :=
  match v with
  | JDict _ => true
  | _ => false
  end.

(** ** Sample data *)

(** Rows of four nations; AUT and SUI both total 100 points, "aut" is a
    nation of its own, and rank 31 is not in the table. *)
Definition sample_rows : list (Row string) :=
  [ mkRow 3 "SUI" "R1"; mkRow 1 "AUT" "R2"; mkRow 5 "aut" "R3";
    mkRow 7 "SUI" "R4"; mkRow 31 "GER" "R5"; mkRow 30 "SUI" "R6";
    mkRow 28 "SUI" "R7" ].

(** Scenario B of the specification, with two more entries: a rank that is
    not a number and a rank given as the float 5.7. *)
Definition float_5_7 : spec_float := S754_finite false 6417281813479629 (-50).

Definition float_entry : list (string * json) :=
  [("RankingFinal", JFloat float_5_7); ("NationCC3", JStr "SUI");
   ("FirstName", JStr "Jane"); ("LastName", JStr "Doe")].

Definition sample_document : json :=
  JDict [("Results", JList [
    JDict [("RankingFinal", JStr "2"); ("NationCC3", JStr "AUT");
           ("DisplayName", JStr "B")];
    JDict [("RankingFinal", JStr "1"); ("NationCC3", JStr "AUT");
           ("DisplayName", JStr "A")];
    JDict [("RankingFinal", JStr "31"); ("NationCC3", JStr "SUI")];
    JDict [("RankingFinal", JStr "DNF"); ("NationCC3", JStr "SUI")];
    JDict float_entry;
    JDict [("RankingFinal", JInt 2); ("NationCC3", JStr "");
           ("DisplayName", JStr "C")];
    JDict [("RankingFinal", JInt 2); ("NationCC3", JStr "ITA");
           ("DisplayName", JStr "D")] ])].

(** The top thirty of a race in finishing order, two racers tied on rank
    15. *)
Definition race_entry (e : Z * string * string) : json :=
  let '(rank, nation, name) := e in
  JDict [("RankingFinal", JInt rank); ("NationCC3", JStr nation);
         ("DisplayName", JStr name)].

Definition race_row (e : Z * string * string) : Row json :=
  let '(rank, nation, name) := e in mkRow rank (JStr nation) (JStr name).

Definition race_first_14 : list (Z * string * string) :=
  [ (1, "SUI", "R01"); (2, "NOR", "R02"); (3, "AUT", "R03");
    (4, "SUI", "R04"); (5, "ITA", "R05"); (6, "CAN", "R06");
    (7, "AUT", "R07"); (8, "USA", "R08"); (9, "FRA", "R09");
    (10, "GER", "R10"); (11, "SUI", "R11"); (12, "AUT", "R12");
    (13, "FRA", "R13"); (14, "ITA", "R14") ].

Definition race_tied_a : Z * string * string := (15, "NOR", "R15").
Definition race_tied_b : Z * string * string := (15, "SLO", "R16").

Definition race_last_14 : list (Z * string * string) :=
  [ (17, "USA", "R17"); (18, "GER", "R18"); (19, "SUI", "R19");
    (20, "AUT", "R20"); (21, "CAN", "R21"); (22, "FRA", "R22");
    (23, "ITA", "R23"); (24, "GER", "R24"); (25, "SWE", "R25");
    (26, "SUI", "R26"); (27, "AUT", "R27"); (28, "USA", "R28");
    (29, "FRA", "R29"); (30, "SLO", "R30") ].

Definition race_results : list (Z * string * string) :=
  race_first_14 ++ [race_tied_a; race_tied_b] ++ race_last_14.

Definition race_document : json :=
  JDict [("Results", JList (map race_entry race_results))].

(** Four racers whose ranks read 2, 2, 1, 1 in the order of the entries,
    as rows for the aggregator and as a document for the normalizer.  In
    the rows the nations appear in alphabetical order. *)
Definition tied_rows : list (Row string) :=
  [ mkRow 2 "AUT" "A"; mkRow 2 "FRA" "B"; mkRow 1 "ITA" "C";
    mkRow 1 "SUI" "D" ].

Definition tied_results : list (Z * string * string) :=
  [ (2, "AUT", "A"); (2, "FRA", "B"); (1, "ITA", "C"); (1, "SUI", "D") ].

Definition tied_document : json :=
  JDict [("Results", JList (map race_entry tied_results))].

(** An entry with rank 1 and nation AUT whose FirstName is the number 7. *)
Definition numeric_name_entry : json :=
  JDict [("RankingFinal", JInt 1); ("NationCC3", JStr "AUT");
         ("FirstName", JInt 7)].

(** * Properties *)

Lemma FIS_POINTS_outside (r : Z) :
  r < 1 \/ 30 < r -> dict_get Z.eqb FIS_POINTS r = None.
Proof.
  intros H. unfold FIS_POINTS. cbn [dict_get].
  repeat match goal with
  | |- context [Z.eqb r ?k] =>
      let E := fresh in destruct (Z.eqb_spec r k) as [E|E]; [lia|clear E]
  end.
  reflexivity.
Qed.

Lemma in_range_cases (r : Z) :
  1 <= r <= 30 -> In r (map fst FIS_POINTS).
Proof.
  intros H. cbn.
  assert (r = 1 \/ r = 2 \/ r = 3 \/ r = 4 \/ r = 5 \/ r = 6 \/ r = 7 \/ r = 8
          \/ r = 9 \/ r = 10 \/ r = 11 \/ r = 12 \/ r = 13 \/ r = 14 \/ r = 15
          \/ r = 16 \/ r = 17 \/ r = 18 \/ r = 19 \/ r = 20 \/ r = 21 \/ r = 22
          \/ r = 23 \/ r = 24 \/ r = 25 \/ r = 26 \/ r = 27 \/ r = 28 \/ r = 29
          \/ r = 30) by lia.
  intuition auto.
Qed.

Lemma FIS_POINTS_inside (r p : Z) :
  dict_get Z.eqb FIS_POINTS r = Some p -> 1 <= r <= 30 /\ 1 <= p <= 100.
Proof.
  unfold FIS_POINTS. cbn [dict_get].
  repeat match goal with
  | |- context [Z.eqb r ?k] =>
      destruct (Z.eqb_spec r k);
      [intros [= <-]; lia|]
  end.
  discriminate.
Qed.

Lemma FIS_POINTS_decreasing_step (r p q : Z) :
  dict_get Z.eqb FIS_POINTS r = Some p ->
  dict_get Z.eqb FIS_POINTS (r + 1) = Some q ->
  q < p.
Proof.
  intros Hp Hq.
  destruct (FIS_POINTS_inside _ _ Hp) as [Hr _].
  destruct (FIS_POINTS_inside _ _ Hq) as [Hr' _].
  assert (Hc : In r (map fst FIS_POINTS)) by (apply in_range_cases; lia).
  cbn in Hc.
  repeat (destruct Hc as [<-|Hc];
          [vm_compute in Hp, Hq; try lia;
           injection Hp as <-; injection Hq as <-; reflexivity|]).
  contradiction.
Qed.

Lemma FIS_POINTS_defined (r : Z) :
  1 <= r <= 30 -> exists p, dict_get Z.eqb FIS_POINTS r = Some p.
Proof.
  intros H. apply in_range_cases in H. cbn in H.
  repeat (destruct H as [<-|H]; [eexists; reflexivity|]).
  contradiction.
Qed.

Lemma FIS_POINTS_decreasing (n : nat) (r p q : Z) :
  dict_get Z.eqb FIS_POINTS r = Some p ->
  dict_get Z.eqb FIS_POINTS (r + 1 + Z.of_nat n) = Some q ->
  q < p.
Proof.
  revert q. induction n as [|n IH]; intros q Hp Hq.
  - rewrite Z.add_0_r in Hq. eapply FIS_POINTS_decreasing_step; eassumption.
  - destruct (FIS_POINTS_inside _ _ Hp) as [Hr _].
    destruct (FIS_POINTS_inside _ _ Hq) as [Hr' _].
    destruct (FIS_POINTS_defined (r + 1 + Z.of_nat n)) as [q' Hq']; [lia|].
    specialize (IH _ Hp Hq').
    replace (r + 1 + Z.of_nat (S n)) with (r + 1 + Z.of_nat n + 1) in Hq by lia.
    pose proof (FIS_POINTS_decreasing_step _ _ _ Hq' Hq). lia.
Qed.

(** C6. The points table is defined exactly on the ranks 1 to 30, holds the
    thirty values of the World Cup scheme, decreases strictly as the rank
    grows, and a rank outside 1..30 scores 0. *)
Theorem FIS_POINTS_is_the_world_cup_table :
  (forall r, (exists p, dict_get Z.eqb FIS_POINTS r = Some p) <-> 1 <= r <= 30)
  /\ map (dict_get Z.eqb FIS_POINTS)
       [1; 2; 3; 4; 5; 6; 7; 8; 9; 10; 11; 12; 13; 14; 15;
        16; 17; 18; 19; 20; 21; 22; 23; 24; 25; 26; 27; 28; 29; 30]
     = map Some
       [100; 80; 60; 50; 45; 40; 36; 32; 29; 26; 24; 22; 20; 18; 16;
        15; 14; 13; 12; 11; 10; 9; 8; 7; 6; 5; 4; 3; 2; 1]
  /\ NoDup (map fst FIS_POINTS)
  /\ (forall r1 r2 p1 p2,
        dict_get Z.eqb FIS_POINTS r1 = Some p1 ->
        dict_get Z.eqb FIS_POINTS r2 = Some p2 ->
        r1 < r2 -> p2 < p1)
  /\ (forall r, 1 <= r <= 30 -> 1 <= rank_points r <= 100)
  /\ (forall r, r < 1 \/ 30 < r -> rank_points r = 0).
Proof.
  split; [|split; [|split; [|split; [|split]]]].
  - intros r. split.
    + intros [p Hp]. apply (FIS_POINTS_inside _ _ Hp).
    + apply FIS_POINTS_defined.
  - reflexivity.
  - cbn. repeat (constructor; [cbn; intuition lia|]). constructor.
  - intros r1 r2 p1 p2 H1 H2 Hlt.
    apply (FIS_POINTS_decreasing (Z.to_nat (r2 - r1 - 1)) r1); [exact H1|].
    replace (r1 + 1 + Z.of_nat (Z.to_nat (r2 - r1 - 1))) with r2 by lia.
    exact H2.
  - intros r H. destruct (FIS_POINTS_defined r H) as [p Hp].
    unfold rank_points. rewrite Hp. apply (FIS_POINTS_inside _ _ Hp).
  - intros r H. unfold rank_points. rewrite FIS_POINTS_outside; auto.
Qed.

(** ** Identifier extractor *)

Lemma strip_literal_spec (lit s r : list N) :
  strip_literal lit s = Some r <-> s = lit ++ r.
Proof.
  revert s. induction lit as [|a lit IH]; intros s; cbn.
  - split; [intros [= ->]; reflexivity|intros ->; reflexivity].
  - destruct s as [|b s].
    + split; discriminate.
    + destruct (N.eqb_spec a b) as [->|Hne].
      * rewrite IH. split; [intros ->; reflexivity|intros [= ->]; reflexivity].
      * split; [discriminate|intros [= E _]; congruence].
Qed.

Lemma decimal_ascii_only_ascii : ascii_decimals decimal_ascii_only.
Proof.
  intros c _. unfold decimal_ascii_only.
  rewrite andb_true_iff, !N.leb_le. reflexivity.
Qed.

Lemma decimal_with_arabic_indic_ascii :
  ascii_decimals decimal_with_arabic_indic.
Proof.
  intros c Hc. unfold decimal_with_arabic_indic, decimal_ascii_only.
  rewrite orb_true_iff, !andb_true_iff, !N.leb_le. lia.
Qed.

Section ExtractorFacts.
Variable is_decimal : N -> bool.

Lemma digit_run_split (s : list N) :
  exists rest,
    s = digit_run is_decimal s ++ rest
    /\ all_digits is_decimal (digit_run is_decimal s)
    /\ ~ starts_with_digit is_decimal rest.
Proof.
  induction s as [|c s (rest & E & Hd & Hr)]; cbn.
  - exists []. repeat split; [constructor|]. intros (c & s' & [=] & _).
  - destruct (is_decimal c) eqn:Hc.
    + exists rest. cbn. rewrite <- E. repeat split; [|exact Hr].
      constructor; assumption.
    + exists (c :: s). repeat split; [constructor|].
      intros (c' & s' & [= <- <-] & Hc'). congruence.
Qed.

Lemma digit_run_unique (g rest : list N) :
  all_digits is_decimal g -> ~ starts_with_digit is_decimal rest ->
  digit_run is_decimal (g ++ rest) = g.
Proof.
  intros Hg Hr. induction g as [|c g IH]; cbn.
  - destruct rest as [|c rest]; [reflexivity|]. cbn.
    destruct (is_decimal c) eqn:Hc; [|reflexivity].
    exfalso. apply Hr. now exists c, rest.
  - inversion Hg as [|? ? Hc Hg']; subst. rewrite Hc, IH; auto.
Qed.

Lemma match_alternative_spec (m s g : list N) :
  match_alternative is_decimal m s = Some g <->
  exists rest, s = m ++ g ++ rest
               /\ g <> [] /\ all_digits is_decimal g
               /\ ~ starts_with_digit is_decimal rest.
Proof.
  unfold match_alternative. split.
  - destruct (strip_literal m s) as [r|] eqn:E; [|discriminate].
    apply strip_literal_spec in E.
    destruct (digit_run_split r) as (rest & Er & Hd & Hr).
    destruct (digit_run is_decimal r) as [|c g'] eqn:Eg; [discriminate|].
    intros [= <-].
    exists rest. rewrite <- Er. repeat split; try assumption. discriminate.
  - intros (rest & -> & Hne & Hd & Hr).
    assert (E : strip_literal m (m ++ g ++ rest) = Some (g ++ rest))
      by now apply strip_literal_spec.
    rewrite E, digit_run_unique by assumption.
    destruct g; [contradiction|reflexivity].
Qed.

Lemma match_here_spec (s g : list N) :
  match_here is_decimal s = Some g <-> marker_then_digits is_decimal s g.
Proof.
  unfold match_here, marker_then_digits, is_marker. split.
  - destruct (match_alternative is_decimal (codepoints "/event/") s)
      as [g'|] eqn:E.
    + intros [= <-]. apply match_alternative_spec in E.
      destruct E as (rest & E). exists (codepoints "/event/"), rest. tauto.
    + intros E'. apply match_alternative_spec in E'.
      destruct E' as (rest & E').
      exists (codepoints "/sportevents/"), rest. tauto.
  - intros (m & rest & [->| ->] & H).
    + assert (E : match_alternative is_decimal (codepoints "/event/") s
                  = Some g)
        by (apply match_alternative_spec; now exists rest).
      now rewrite E.
    + assert (E : match_alternative is_decimal (codepoints "/sportevents/") s
                  = Some g)
        by (apply match_alternative_spec; now exists rest).
      destruct H as (-> & _). exact E.
Qed.

Lemma re_search_unfold (s : list N) :
  re_search is_decimal s =
  match match_here is_decimal s with
  | Some g => Some g
  | None =>
      match s with
      | _ :: s' => re_search is_decimal s'
      | [] => None
      end
  end.
Proof. destruct s; reflexivity. Qed.

Lemma re_search_found (s g : list N) :
  re_search is_decimal s = Some g ->
  exists pre suf,
    s = pre ++ suf /\ match_here is_decimal suf = Some g
    /\ forall pre' suf',
         s = pre' ++ suf' ->
         (List.length pre' < List.length pre)%nat ->
         match_here is_decimal suf' = None.
Proof.
  induction s as [|c s IH]; rewrite re_search_unfold.
  - destruct (match_here is_decimal []) as [g'|] eqn:E; [|discriminate].
    intros [= <-]. exists [], []. repeat split; [exact E|].
    cbn. intros; lia.
  - destruct (match_here is_decimal (c :: s)) as [g'|] eqn:E.
    + intros [= <-]. exists [], (c :: s). repeat split; [exact E|].
      cbn. intros; lia.
    + intros H. destruct (IH H) as (pre & suf & -> & Hm & Hleft).
      exists (c :: pre), suf. repeat split; [exact Hm|].
      intros [|c' pre'] suf' Heq Hlen; cbn in Heq, Hlen.
      * subst suf'. exact E.
      * injection Heq as <- Heq. apply (Hleft pre' suf' Heq). lia.
Qed.

Lemma re_search_leftmost (pre suf g : list N) :
  match_here is_decimal suf = Some g ->
  (forall pre' suf',
     pre ++ suf = pre' ++ suf' ->
     (List.length pre' < List.length pre)%nat ->
     match_here is_decimal suf' = None) ->
  re_search is_decimal (pre ++ suf) = Some g.
Proof.
  intros Hm. induction pre as [|c pre IH]; intros Hleft;
    rewrite re_search_unfold; cbn [app].
  - now rewrite Hm.
  - rewrite (Hleft [] (c :: pre ++ suf)); [|reflexivity|cbn; lia].
    apply IH. intros pre' suf' Heq Hlen.
    apply (Hleft (c :: pre') suf'); cbn; [now rewrite Heq|lia].
Qed.

Lemma re_search_none (s : list N) :
  re_search is_decimal s = None <->
  forall pre suf, s = pre ++ suf -> match_here is_decimal suf = None.
Proof.
  split.
  - induction s as [|c s IH]; rewrite re_search_unfold.
    + destruct (match_here is_decimal []) eqn:E; [discriminate|].
      intros _ [|c' pre] suf; cbn; [intros <-; exact E|discriminate].
    + destruct (match_here is_decimal (c :: s)) eqn:E; [discriminate|].
      intros H [|c' pre] suf; cbn.
      * intros <-. exact E.
      * intros [= <- Heq]. apply (IH H pre suf Heq).
  - intros H. destruct (re_search is_decimal s) as [g|] eqn:E; [|reflexivity].
    destruct (re_search_found _ _ E) as (pre & suf & Heq & Hm & _).
    rewrite (H pre suf Heq) in Hm. discriminate.
Qed.

Lemma marker_then_digits_none (s : list N) :
  match_here is_decimal s = None <->
  forall g, ~ marker_then_digits is_decimal s g.
Proof.
  split.
  - intros E g H. apply match_here_spec in H. congruence.
  - intros H. destruct (match_here is_decimal s) as [g|] eqn:E; [|reflexivity].
    apply match_here_spec in E. now apply H in E.
Qed.

Lemma extract_found_digits (url g : list N) :
  extract_event_id_from_url is_decimal url = Ok g ->
  g <> [] /\ all_digits is_decimal g.
Proof.
  unfold extract_event_id_from_url.
  destruct (re_search is_decimal url) as [g'|] eqn:E; [|discriminate].
  intros [= <-].
  destruct (re_search_found _ _ E) as (pre & suf & _ & Hm & _).
  apply match_here_spec in Hm.
  destruct Hm as (m & rest & _ & _ & Hne & Hd & _). now split.
Qed.

(** C5. The extractor returns the whole run of decimal digits directly
    after the leftmost marker [/event/] or [/sportevents/] that has a digit
    after it, leading zeros included; it raises ValueError exactly when no
    place of the string has a marker directly followed by a digit; it
    raises nothing else and never returns the empty string.  The digits
    are those of the class [\d]; among the characters below 128 they are
    the code points 48 to 57, ['0'] to ['9']. *)
Theorem extract_event_id_from_url_spec (url : list N) :
  ascii_decimals is_decimal ->
  (forall g,
     extract_event_id_from_url is_decimal url = Ok g <->
     exists pre suf,
       url = pre ++ suf
       /\ (exists m rest,
             (m = codepoints "/event/" \/ m = codepoints "/sportevents/")
             /\ suf = m ++ g ++ rest
             /\ g <> []
             /\ Forall (fun c => is_decimal c = true) g
             /\ (forall c rest', rest = c :: rest' -> is_decimal c = false))
       /\ forall pre' suf' g',
            url = pre' ++ suf' ->
            (List.length pre' < List.length pre)%nat ->
            ~ marker_then_digits is_decimal suf' g')
  /\ (extract_event_id_from_url is_decimal url = Raise ValueError <->
      forall pre suf g,
        url = pre ++ suf -> ~ marker_then_digits is_decimal suf g)
  /\ (forall e,
        extract_event_id_from_url is_decimal url = Raise e -> e = ValueError)
  /\ extract_event_id_from_url is_decimal url <> Ok []
  /\ (forall g,
        extract_event_id_from_url is_decimal url = Ok g ->
        Forall (fun c => (c < 128)%N -> (48 <= c <= 57)%N) g)
  /\ (forall pre m c rest,
        url = pre ++ m ++ c :: rest ->
        m = codepoints "/event/" \/ m = codepoints "/sportevents/" ->
        (48 <= c <= 57)%N ->
        exists g, extract_event_id_from_url is_decimal url = Ok g).
Proof.
  intros Hascii.
  assert (Hrest : forall rest,
             ~ starts_with_digit is_decimal rest <->
             forall c rest', rest = c :: rest' -> is_decimal c = false).
  { intros rest. split.
    - intros H c rest' ->. destruct (is_decimal c) eqn:Hc; [|reflexivity].
      exfalso. apply H. now exists c, rest'.
    - intros H (c & rest' & E & Hc). rewrite (H c rest' E) in Hc.
      discriminate. }
  split; [|split; [|split; [|split; [|split]]]].
  - unfold extract_event_id_from_url. intros g. split.
    + destruct (re_search is_decimal url) as [g'|] eqn:E; [|discriminate].
      intros [= <-].
      destruct (re_search_found _ _ E) as (pre & suf & Heq & Hm & Hleft).
      exists pre, suf. split; [exact Heq|]. split.
      * apply match_here_spec in Hm.
        destruct Hm as (m & rest & Hmk & Hs & Hne & Hd & Hr).
        exists m, rest. repeat split; try assumption. now apply Hrest.
      * intros pre' suf' g2 Heq' Hlen.
        apply marker_then_digits_none. now apply (Hleft pre').
    + intros (pre & suf & -> & (m & rest & Hmk & Hs & Hne & Hd & Hr) & Hleft).
      rewrite (re_search_leftmost pre suf g); [reflexivity| |].
      * apply match_here_spec. exists m, rest.
        repeat split; try assumption. now apply Hrest.
      * intros pre' suf' Heq Hlen. apply marker_then_digits_none.
        intros g2. now apply (Hleft pre').
  - unfold extract_event_id_from_url. split.
    + destruct (re_search is_decimal url) as [g'|] eqn:E; [discriminate|].
      intros _ pre suf g Heq.
      apply marker_then_digits_none. revert pre suf Heq.
      now apply re_search_none.
    + intros H.
      assert (E : re_search is_decimal url = None).
      { apply re_search_none. intros pre suf Heq.
        apply marker_then_digits_none. intros g. now apply (H pre). }
      now rewrite E.
  - unfold extract_event_id_from_url. intros e.
    destruct (re_search is_decimal url); [discriminate|now intros [= <-]].
  - intros E. now destruct (extract_found_digits _ _ E).
  - intros g E. destruct (extract_found_digits _ _ E) as [_ Hd].
    apply Forall_forall. intros c Hc Hlt.
    apply (Hascii c Hlt). clear Hlt. revert c Hc. now apply Forall_forall.
  - intros pre m c rest -> Hmk Hc.
    unfold extract_event_id_from_url.
    destruct (re_search is_decimal (pre ++ m ++ c :: rest)) as [g|] eqn:E;
      [now exists g|].
    exfalso.
    assert (Hm : match_here is_decimal (m ++ c :: rest) = None)
      by (revert E; rewrite re_search_none; intros E; now apply (E pre)).
    assert (Hd : is_decimal c = true) by (apply Hascii; lia).
    destruct (digit_run_split (c :: rest)) as (rest2 & E2 & Hd2 & Hr2).
    assert (Hsome : match_here is_decimal (m ++ c :: rest)
                    = Some (digit_run is_decimal (c :: rest))).
    { apply match_here_spec. exists m, rest2.
      repeat split; try assumption.
      - now rewrite <- E2.
      - cbn. rewrite Hd. discriminate. }
    congruence.
Qed.

End ExtractorFacts.

Lemma extract_event_id_from_url_spec_witness :
  ascii_decimals decimal_with_arabic_indic
  /\ extract_event_id_from_url decimal_with_arabic_indic
       (codepoints "https://sport.orf.at/#/event/12" ++ [1635; 120]%N)
     = Ok [49; 50; 1635]%N
  /\ Forall (fun c => (c < 128)%N -> (48 <= c <= 57)%N) [49; 50; 1635]%N.
Proof.
  split; [exact decimal_with_arabic_indic_ascii|].
  split; [reflexivity|].
  destruct (extract_event_id_from_url_spec decimal_with_arabic_indic
              (codepoints "https://sport.orf.at/#/event/12"
               ++ [1635; 120]%N)
              decimal_with_arabic_indic_ascii)
    as (_ & _ & _ & _ & H & _).
  apply H. reflexivity.
Defined.

Example extract_scenario_A :
  extract_event_id_from_url decimal_ascii_only
    (codepoints "https://sport.orf.at/skialpin/#/event/11986")
  = Ok (codepoints "11986").
Proof. reflexivity. Qed.

Example extract_api_url :
  extract_event_id_from_url decimal_ascii_only
    (codepoints
       "https://afeeds.orf.at/alpine-api/api/sportevents/0011986?detailtype=end")
  = Ok (codepoints "0011986").
Proof. reflexivity. Qed.

Example extract_skips_marker_without_digits :
  extract_event_id_from_url decimal_ascii_only
    (codepoints "https://sport.orf.at/#/event/x/sportevents/7")
  = Ok (codepoints "7").
Proof. reflexivity. Qed.

Example extract_no_event_id :
  extract_event_id_from_url decimal_ascii_only
    (codepoints "https://sport.orf.at/skialpin/#/termine")
  = Raise ValueError.
Proof. reflexivity. Qed.

(** A digit that is not an ASCII digit belongs to the run: U+0663
    ARABIC-INDIC DIGIT THREE after [/event/12]. *)
Example extract_arabic_indic_digit :
  extract_event_id_from_url decimal_with_arabic_indic
    (codepoints "/event/12" ++ [1635; 120]%N)
  = Ok [49; 50; 1635]%N.
Proof. reflexivity. Qed.

(** ** Record discoverer *)

Lemma fold_left_extend {A B : Type} (f : A -> list B) (l : list A)
    (found : list B) :
  fold_left (fun found x => found ++ f x) l found = found ++ flat_map f l.
Proof.
  revert found. induction l as [|x l IH]; intros found; cbn.
  - now rewrite app_nil_r.
  - now rewrite IH, app_assoc.
Qed.

Lemma filter_flat_map {A B : Type} (p : B -> bool) (f : A -> list B)
    (l : list A) :
  filter p (flat_map f l) = flat_map (fun x => filter p (f x)) l.
Proof.
  induction l as [|x l IH]; cbn; [reflexivity|].
  now rewrite filter_app, IH.
Qed.

Lemma flat_map_ext_Forall {A B : Type} (f g : A -> list B) (l : list A) :
  Forall (fun x => f x = g x) l -> flat_map f l = flat_map g l.
Proof.
  induction 1 as [|x l E _ IH]; cbn; [reflexivity|]. now rewrite E, IH.
Qed.

Lemma existsb_swap {A B : Type} (r : A -> B -> bool) (l : list A)
    (l' : list B) :
  existsb (fun a => existsb (r a) l') l
  = existsb (fun b => existsb (fun a => r a b) l) l'.
Proof.
  apply Bool.eq_iff_eq_true. rewrite !existsb_exists. split.
  - intros (a & Ha & H). apply existsb_exists in H as (b & Hb & H).
    exists b. split; [exact Hb|]. apply existsb_exists. now exists a.
  - intros (b & Hb & H). apply existsb_exists in H as (a & Ha & H).
    exists a. split; [exact Ha|]. apply existsb_exists. now exists b.
Qed.

Lemma heuristic_is_candidate (kvs : list (string * json)) :
  existsb (dict_has String.eqb kvs) rank_keys
  && existsb (dict_has String.eqb kvs) nation_keys
  = is_candidate (JDict kvs).
Proof.
  assert (Hswap : forall keys,
             existsb (dict_has String.eqb kvs) keys
             = existsb (fun k => existsb (String.eqb k) keys) (map fst kvs)).
  { intros keys. unfold dict_has.
    rewrite (existsb_swap (fun k k' => String.eqb k k') keys).
    induction (map fst kvs) as [|k l IH]; cbn; [reflexivity|].
    rewrite IH. f_equal. clear IH.
    induction keys as [|k' keys IH]; cbn; [reflexivity|].
    now rewrite IH, String.eqb_sym. }
  unfold is_candidate. now rewrite !Hswap.
Qed.

Lemma find_result_items_dict (kvs : list (string * json)) :
  _find_result_items (JDict kvs)
  = (if is_candidate (JDict kvs) then [JDict kvs] else [])
    ++ flat_map (fun kv => _find_result_items (snd kv)) kvs.
Proof.
  cbn [_find_result_items]. rewrite fold_left_extend.
  now rewrite heuristic_is_candidate.
Qed.

Lemma find_result_items_list (xs : list json) :
  _find_result_items (JList xs) = flat_map _find_result_items xs.
Proof. cbn [_find_result_items]. now rewrite fold_left_extend. Qed.

Lemma is_candidate_iff (v : json) :
  is_candidate v = true <->
  exists kvs,
    v = JDict kvs
    /\ (exists k, In k (map fst kvs) /\ In k rank_keys)
    /\ (exists k, In k (map fst kvs) /\ In k nation_keys).
Proof.
  assert (Hin : forall keys k,
             existsb (String.eqb k) keys = true <-> In k keys).
  { intros keys k. rewrite existsb_exists. split.
    - intros (k' & Hk' & E). apply String.eqb_eq in E. now subst.
    - intros Hk. exists k. split; [exact Hk|apply String.eqb_refl]. }
  split.
  - destruct v; try discriminate. cbn [is_candidate].
    intros H. apply andb_true_iff in H as [Hr Hn].
    apply existsb_exists in Hr as (k1 & Hk1 & Hr).
    apply existsb_exists in Hn as (k2 & Hk2 & Hn).
    exists kvs. split; [reflexivity|]. split.
    + exists k1. split; [exact Hk1|now apply Hin].
    + exists k2. split; [exact Hk2|now apply Hin].
  - intros (kvs & -> & (k1 & Hk1 & Hr) & (k2 & Hk2 & Hn)).
    cbn [is_candidate]. apply andb_true_iff. split; apply existsb_exists.
    + exists k1. split; [exact Hk1|now apply Hin].
    + exists k2. split; [exact Hk2|now apply Hin].
Qed.

(** C9. The discoverer returns exactly the candidate objects of the tree,
    in the order of a depth-first walk that visits a node before its
    children, the values of an object in document order and the elements of
    an array in index order.  A candidate is an object that has a key among
    rank, position, place and a key among nation, nationShort, countryCode,
    country.  A candidate is still searched, every match is listed on its
    own, and a scalar yields nothing. *)
Theorem find_result_items_spec :
  (forall v, _find_result_items v = filter is_candidate (dfs_preorder v))
  /\ (forall v,
        is_candidate v = true <->
        exists kvs,
          v = JDict kvs
          /\ (exists k,
                In k (map fst kvs) /\ In k ["rank"; "position"; "place"])
          /\ (exists k,
                In k (map fst kvs)
                /\ In k ["nation"; "nationShort"; "countryCode"; "country"]))
  /\ (forall kvs,
        _find_result_items (JDict kvs)
        = (if is_candidate (JDict kvs) then [JDict kvs] else [])
          ++ flat_map (fun kv => _find_result_items (snd kv)) kvs)
  /\ (forall xs,
        _find_result_items (JList xs) = flat_map _find_result_items xs)
  /\ (forall v,
        (forall kvs, v <> JDict kvs) -> (forall xs, v <> JList xs) ->
        _find_result_items v = []).
Proof.
  split; [|split; [|split; [|split]]].
  - induction v as [| | | | |xs IH|kvs IH] using json_ind;
      try reflexivity.
    + rewrite find_result_items_list. cbn [dfs_preorder filter is_candidate].
      rewrite filter_flat_map. now apply flat_map_ext_Forall.
    + rewrite find_result_items_dict. cbn [dfs_preorder filter].
      rewrite filter_flat_map.
      rewrite (flat_map_ext_Forall _ _ _ IH).
      now destruct (is_candidate (JDict kvs)).
  - exact is_candidate_iff.
  - exact find_result_items_dict.
  - exact find_result_items_list.
  - intros v Hd Hl. destruct v; try reflexivity.
    + now destruct (Hl xs).
    + now destruct (Hd kvs).
Qed.

Example find_nested_candidates :
  let inner := JDict [("place", JInt 2); ("country", JStr "SUI")] in
  let other := JDict [("Rank", JInt 3); ("country", JStr "ITA")] in
  let outer :=
    JDict [("rank", JInt 1); ("nation", JStr "AUT");
           ("team", JList [inner; other; inner])] in
  _find_result_items (JList [JInt 7; outer]) = [outer; inner; inner].
Proof. reflexivity. Qed.

(** ** Sorting *)

Lemma take_seq_from {A : Type} (pre l : list A) :
  take (pre ++ l) (seq (List.length pre) (List.length l)) = l.
Proof.
  revert pre. induction l as [|x l IH]; intros pre; [reflexivity|].
  cbn [List.length seq take flat_map].
  rewrite nth_error_app2, Nat.sub_diag by lia. cbn [nth_error app].
  f_equal. specialize (IH (pre ++ [x])).
  rewrite <- app_assoc, length_app, Nat.add_1_r in IH. exact IH.
Qed.

Lemma take_seq {A : Type} (l : list A) : take l (seq 0 (List.length l)) = l.
Proof. exact (take_seq_from [] l). Qed.

Lemma take_permutation {A : Type} (l : list A) (indexer : list nat) :
  Permutation indexer (seq 0 (List.length l)) -> Permutation (take l indexer) l.
Proof.
  intros H. rewrite <- (take_seq l) at 2. unfold take.
  now apply Permutation_flat_map.
Qed.

Lemma take_map {A B : Type} (f : A -> B) (l : list A) (indexer : list nat) :
  map f (take l indexer) = take (map f l) indexer.
Proof.
  unfold take. induction indexer as [|i indexer IH]; [reflexivity|].
  cbn [flat_map]. rewrite map_app, IH, nth_error_map.
  now destruct (nth_error l i).
Qed.

Lemma Sorted_map {A B : Type} (R : B -> B -> Prop) (f : A -> B) (l : list A) :
  Sorted R (map f l) <-> Sorted (fun a b => R (f a) (f b)) l.
Proof.
  induction l as [|x l IH]; cbn.
  - split; constructor.
  - split; intros H; inversion H as [|? ? Hs Hh]; subst;
      (constructor; [now apply IH|]);
      destruct l; cbn in *; constructor; now inversion Hh.
Qed.

Lemma key_order_trans (ascending : bool) (a b c : Z) :
  key_order ascending a b -> key_order ascending b c ->
  key_order ascending a c.
Proof. unfold key_order. destruct ascending; lia. Qed.

Lemma Sorted_key_order_strong {A : Type} (key : A -> Z) (ascending : bool)
    (l : list A) :
  Sorted (fun a b => key_order ascending (key a) (key b)) l ->
  StronglySorted (fun a b => key_order ascending (key a) (key b)) l.
Proof.
  apply Sorted_StronglySorted. intros a b c. apply key_order_trans.
Qed.

Section SortValues.
Variable nargsort : list Z -> bool -> list nat.
Hypothesis nargsort_permutes : argsort_permutes nargsort.
Hypothesis nargsort_orders : argsort_orders nargsort.

Lemma sort_values_permutation {A : Type} (key : A -> Z) (ascending : bool)
    (rows : list A) :
  Permutation (sort_values nargsort key ascending rows) rows.
Proof.
  apply take_permutation.
  rewrite <- (length_map key). apply nargsort_permutes.
Qed.

Lemma sort_values_sorted {A : Type} (key : A -> Z) (ascending : bool)
    (rows : list A) :
  StronglySorted (fun a b => key_order ascending (key a) (key b))
    (sort_values nargsort key ascending rows).
Proof.
  apply Sorted_key_order_strong, Sorted_map.
  unfold sort_values. rewrite take_map. apply nargsort_orders.
Qed.
End SortValues.

Section InsertionSortFacts.
Context {A : Type}.
Variable before : A -> A -> bool.
Variable R : A -> A -> Prop.
Hypothesis before_true : forall x y, before x y = true -> R x y.
Hypothesis before_false : forall x y, before x y = false -> R y x.

Lemma insert_sorted_permutation (x : A) (l : list A) :
  Permutation (insert_sorted before x l) (x :: l).
Proof.
  induction l as [|y l IH]; cbn; [reflexivity|].
  destruct (before x y); [reflexivity|].
  rewrite IH. apply perm_swap.
Qed.

Lemma insertion_sort_permutation (l : list A) :
  Permutation (insertion_sort before l) l.
Proof.
  induction l as [|x l IH]; cbn; [reflexivity|].
  rewrite insert_sorted_permutation. now constructor.
Qed.

Lemma insert_sorted_Sorted (x : A) (l : list A) :
  Sorted R l -> Sorted R (insert_sorted before x l).
Proof.
  induction 1 as [|y l Hs IH Hh]; cbn; [repeat constructor|].
  destruct (before x y) eqn:E.
  - constructor; [now constructor|]. constructor. now apply before_true.
  - constructor; [exact IH|].
    destruct l as [|z l]; cbn.
    + constructor. now apply before_false.
    + destruct (before x z).
      * constructor. now apply before_false.
      * constructor. now inversion Hh.
Qed.

Lemma insertion_sort_Sorted (l : list A) : Sorted R (insertion_sort before l).
Proof.
  induction l as [|x l IH]; cbn; [constructor|].
  now apply insert_sorted_Sorted.
Qed.
End InsertionSortFacts.

Lemma map_fst_combine {A B : Type} (l : list A) (l' : list B) :
  List.length l = List.length l' -> map fst (combine l l') = l.
Proof.
  revert l'. induction l as [|x l IH]; intros [|y l']; cbn; try easy.
  intros [= E]. now rewrite IH.
Qed.

Lemma combine_seq_lookup {A : Type} (pre l : list A) :
  Forall (fun p => nth_error (pre ++ l) (fst p) = Some (snd p))
    (combine (seq (List.length pre) (List.length l)) l).
Proof.
  revert pre. induction l as [|x l IH]; intros pre; cbn; constructor.
  - cbn. now rewrite nth_error_app2, Nat.sub_diag by lia.
  - specialize (IH (pre ++ [x])).
    rewrite <- app_assoc, length_app, Nat.add_1_r in IH. exact IH.
Qed.

Lemma take_lookups {A : Type} (l : list A) (ps : list (nat * A)) :
  Forall (fun p => nth_error l (fst p) = Some (snd p)) ps ->
  take l (map fst ps) = map snd ps.
Proof.
  unfold take. induction 1 as [|p ps E _ IH]; cbn; [reflexivity|].
  now rewrite E, IH.
Qed.

Lemma key_before_true (strict ascending : bool) (p q : nat * Z) :
  key_before strict ascending p q = true ->
  key_order ascending (snd p) (snd q).
Proof. unfold key_before, key_order. destruct strict, ascending; lia. Qed.

Lemma key_before_false (strict ascending : bool) (p q : nat * Z) :
  key_before strict ascending p q = false ->
  key_order ascending (snd q) (snd p).
Proof. unfold key_before, key_order. destruct strict, ascending; lia. Qed.

Lemma argsort_by_permutes (strict : bool) :
  argsort_permutes (argsort_by strict).
Proof.
  intros keys ascending. unfold argsort_by.
  rewrite insertion_sort_permutation.
  now rewrite map_fst_combine by apply length_seq.
Qed.

Lemma argsort_by_orders (strict : bool) : argsort_orders (argsort_by strict).
Proof.
  intros keys ascending. unfold argsort_by.
  rewrite take_lookups.
  - apply Sorted_map.
    apply (insertion_sort_Sorted (key_before strict ascending)).
    + apply key_before_true.
    + apply key_before_false.
  - eapply Permutation_Forall.
    + symmetry. apply insertion_sort_permutation.
    + exact (combine_seq_lookup [] keys).
Qed.

(** ** Points aggregator *)

Lemma Zsum_permutation (l l' : list Z) :
  Permutation l l' -> Zsum l = Zsum l'.
Proof. induction 1; cbn; lia. Qed.

Lemma Zsum_map_add {A : Type} (f g : A -> Z) (l : list A) :
  Zsum (map (fun a => f a + g a) l) = Zsum (map f l) + Zsum (map g l).
Proof. induction l as [|x l IH]; cbn; lia. Qed.

Lemma Zsum_single_key (n : string) (v : Z) (keys : list string) :
  NoDup keys -> In n keys ->
  Zsum (map (fun k => if String.eqb n k then v else 0) keys) = v.
Proof.
  induction 1 as [|k keys Hk Hnd IH]; cbn; [easy|].
  assert (Hzero : forall l, ~ In n l ->
            Zsum (map (fun k => if String.eqb n k then v else 0) l) = 0).
  { induction l as [|k' l IHl]; cbn; [reflexivity|]. intros Hn.
    destruct (String.eqb_spec n k') as [->|_]; [tauto|].
    rewrite IHl; tauto. }
  intros [->|Hin].
  - rewrite String.eqb_refl, Hzero; [lia|exact Hk].
  - destruct (String.eqb_spec n k) as [->|_]; [contradiction|].
    now rewrite IH.
Qed.

Lemma group_sum_cons (n : string) (v : Z) (pairs : list (string * Z))
    (key : string) :
  group_sum ((n, v) :: pairs) key
  = (if String.eqb n key then v else 0) + group_sum pairs key.
Proof.
  unfold group_sum. cbn. now destruct (String.eqb n key).
Qed.

Lemma group_sums_total (pairs : list (string * Z)) (keys : list string) :
  NoDup keys -> (forall p, In p pairs -> In (fst p) keys) ->
  Zsum (map (group_sum pairs) keys) = Zsum (map snd pairs).
Proof.
  intros Hnd. induction pairs as [|[n v] pairs IH]; intros Hcover.
  - clear Hnd. induction keys as [|k keys IHk]; cbn; [reflexivity|].
    rewrite IHk; [reflexivity|easy].
  - rewrite (map_ext _ _ (group_sum_cons n v pairs)), Zsum_map_add.
    rewrite Zsum_single_key; [|exact Hnd|apply (Hcover (n, v)); now left].
    rewrite IH; [reflexivity|]. intros p Hp. apply Hcover. now right.
Qed.

Lemma group_keys_permutation (pairs : list (string * Z)) :
  Permutation (group_keys pairs) (nodup string_dec (map fst pairs)).
Proof. apply insertion_sort_permutation. Qed.

Lemma group_keys_NoDup (pairs : list (string * Z)) : NoDup (group_keys pairs).
Proof.
  eapply Permutation_NoDup.
  - symmetry. apply group_keys_permutation.
  - apply NoDup_nodup.
Qed.

Lemma group_keys_In (pairs : list (string * Z)) (key : string) :
  In key (group_keys pairs) <-> In key (map fst pairs).
Proof.
  rewrite <- (nodup_In string_dec (map fst pairs)).
  split; apply Permutation_in.
  - apply group_keys_permutation.
  - symmetry. apply group_keys_permutation.
Qed.

Lemma groupby_sum_keys (pairs : list (string * Z)) :
  map by_Nation (groupby_sum pairs) = group_keys pairs.
Proof.
  unfold groupby_sum. rewrite map_map. cbn. apply map_id.
Qed.

Lemma groupby_sum_total (pairs : list (string * Z)) :
  Zsum (map Points (groupby_sum pairs)) = Zsum (map snd pairs).
Proof.
  unfold groupby_sum. rewrite map_map. cbn.
  apply group_sums_total; [apply group_keys_NoDup|].
  intros p Hp. apply group_keys_In. now apply in_map.
Qed.

Lemma group_sum_of_rows (rows : list (Row string)) (key : string) :
  group_sum (with_points rows) key
  = Zsum (map (fun r => rank_points (Rank r))
            (filter (fun r => String.eqb (Nation r) key) rows)).
Proof.
  unfold group_sum, with_points.
  induction rows as [|r rows IH]; cbn; [reflexivity|].
  destruct (String.eqb (Nation r) key); cbn; now rewrite IH.
Qed.

Lemma rank_points_bounds (rank : Z) : 0 <= rank_points rank <= 100.
Proof.
  unfold rank_points.
  destruct (dict_get Z.eqb FIS_POINTS rank) as [p|] eqn:E; [|lia].
  apply FIS_POINTS_inside in E. lia.
Qed.

Lemma group_sum_bounds (rows : list (Row string)) (key : string) :
  0 <= group_sum (with_points rows) key
    <= 100 * Z.of_nat (List.length rows).
Proof.
  rewrite group_sum_of_rows.
  induction rows as [|r rows IH]; cbn [filter List.length]; [cbn; lia|].
  pose proof (rank_points_bounds (Rank r)).
  destruct (String.eqb (Nation r) key); cbn [map Zsum]; lia.
Qed.

(** ** The order of strings and sorted lists *)

Lemma string_leb_trans (a b c : string) :
  String.leb a b = true -> String.leb b c = true -> String.leb a c = true.
Proof.
  unfold String.leb. revert b c.
  induction a as [|x a IH]; intros [|y b] [|z c]; cbn; try easy.
  unfold Ascii.compare.
  destruct (N.compare_spec (N_of_ascii x) (N_of_ascii y)) as [Exy|Lxy|Gxy];
    destruct (N.compare_spec (N_of_ascii y) (N_of_ascii z)) as [Eyz|Lyz|Gyz];
    destruct (N.compare_spec (N_of_ascii x) (N_of_ascii z)) as [Exz|Lxz|Gxz];
    try easy; try lia.
  apply IH.
Qed.

Section SortedUnique.
Context {A : Type}.
Variable R : A -> A -> Prop.

(** Two lists in order that hold the same elements are the same list, when
    the order is antisymmetric on these elements. *)
Lemma StronglySorted_unique (l l' : list A) :
  (forall x y, In x l -> In y l -> R x y -> R y x -> x = y) ->
  Permutation l l' -> StronglySorted R l -> StronglySorted R l' -> l = l'.
Proof.
  revert l'. induction l as [|x l IH]; intros l' Hanti Hperm Hs Hs'.
  - now apply Permutation_nil in Hperm.
  - destruct l' as [|y l'].
    + apply Permutation_sym, Permutation_nil in Hperm. discriminate.
    + inversion Hs as [|? ? Hsl Hx]; subst.
      inversion Hs' as [|? ? Hsl' Hy]; subst.
      assert (Hin : In y (x :: l))
        by (apply (Permutation_in _ (Permutation_sym Hperm)); now left).
      assert (E : x = y).
      { assert (Hin' : In x (y :: l'))
          by (apply (Permutation_in _ Hperm); now left).
        destruct Hin as [->|Hin1]; [reflexivity|].
        destruct Hin' as [->|Hin']; [reflexivity|].
        rewrite Forall_forall in Hx, Hy.
        apply Hanti; auto; [now left|now right]. }
      subst y. f_equal. apply IH; auto.
      * intros a b Ha Hb. apply Hanti; now right.
      * now apply Permutation_cons_inv in Hperm.
Qed.
End SortedUnique.

Lemma NoDup_map_injective {A B : Type} (f : A -> B) (l : list A) (x y : A) :
  NoDup (map f l) -> In x l -> In y l -> f x = f y -> x = y.
Proof.
  induction l as [|a l IH]; cbn; [easy|].
  intros Hnd [->|Hx] [->|Hy] E; inversion Hnd as [|? ? Hnotin Hnd']; subst.
  - reflexivity.
  - exfalso. apply Hnotin. rewrite E. now apply in_map.
  - exfalso. apply Hnotin. rewrite <- E. now apply in_map.
  - now apply IH.
Qed.

(** Two sorts that keep the guarantees agree on a column without equal
    keys. *)
Lemma sort_values_unique {A : Type}
    (sort1 sort2 : list Z -> bool -> list nat) (key : A -> Z)
    (ascending : bool) (rows : list A) :
  argsort_permutes sort1 -> argsort_orders sort1 ->
  argsort_permutes sort2 -> argsort_orders sort2 ->
  NoDup (map key rows) ->
  sort_values sort1 key ascending rows = sort_values sort2 key ascending rows.
Proof.
  intros Hp1 Ho1 Hp2 Ho2 Hnd.
  pose proof (sort_values_permutation sort1 Hp1 key ascending rows) as P1.
  pose proof (sort_values_permutation sort2 Hp2 key ascending rows) as P2.
  apply (StronglySorted_unique
           (fun a b => key_order ascending (key a) (key b))).
  - intros x y Hx Hy Hxy Hyx.
    apply (NoDup_map_injective key rows); auto.
    + now apply (Permutation_in _ P1).
    + now apply (Permutation_in _ P1).
    + unfold key_order in *. destruct ascending; lia.
  - now rewrite P1, P2.
  - now apply sort_values_sorted.
  - now apply sort_values_sorted.
Qed.

Lemma group_keys_sorted (pairs : list (string * Z)) :
  StronglySorted (fun a b => String.leb a b = true) (group_keys pairs).
Proof.
  apply Sorted_StronglySorted.
  - intros a b c. apply string_leb_trans.
  - apply (insertion_sort_Sorted String.leb); [auto|].
    intros x y H. destruct (String.leb_total x y) as [E|E]; congruence.
Qed.

Lemma group_keys_of_permutation (pairs pairs' : list (string * Z)) :
  Permutation pairs pairs' -> group_keys pairs = group_keys pairs'.
Proof.
  intros Hperm.
  apply (StronglySorted_unique (fun a b => String.leb a b = true)).
  - intros x y _ _. apply String.leb_antisym.
  - apply NoDup_Permutation; try apply group_keys_NoDup.
    intros key. rewrite !group_keys_In. split; apply Permutation_in;
      apply Permutation_map; [exact Hperm|now symmetry].
  - apply group_keys_sorted.
  - apply group_keys_sorted.
Qed.

Lemma group_sum_of_permutation (pairs pairs' : list (string * Z))
    (key : string) :
  Permutation pairs pairs' -> group_sum pairs key = group_sum pairs' key.
Proof.
  intros Hperm. unfold group_sum. apply Zsum_permutation.
  apply Permutation_map.
  induction Hperm as [|p l l' _ IH|p q l|l l' l'' _ IH1 _ IH2]; cbn.
  - constructor.
  - destruct (String.eqb (fst p) key); [now constructor|exact IH].
  - destruct (String.eqb (fst p) key), (String.eqb (fst q) key);
      try reflexivity. apply perm_swap.
  - now transitivity (filter (fun p => String.eqb (fst p) key) l').
Qed.

Lemma groupby_sum_of_permutation (pairs pairs' : list (string * Z)) :
  Permutation pairs pairs' -> groupby_sum pairs = groupby_sum pairs'.
Proof.
  intros Hperm. unfold groupby_sum.
  rewrite (group_keys_of_permutation _ _ Hperm).
  apply map_ext. intros key. f_equal. now apply group_sum_of_permutation.
Qed.

Section Aggregator.
Variable nargsort : list Z -> bool -> list nat.
Hypothesis nargsort_permutes : argsort_permutes nargsort.
Hypothesis nargsort_orders : argsort_orders nargsort.

(** C1. The points of the returned nation totals add up to the points of
    the input rows, each row counted once, with 0 for a rank that is not
    in the table. *)
Theorem compute_points_sum_invariant (rows : list (Row string)) :
  exists totals,
    compute_points_by_nation nargsort (Frame rows) = Ok (Frame totals)
    /\ Zsum (map Points totals)
       = Zsum (map (fun r => match dict_get Z.eqb FIS_POINTS (Rank r) with
                             | Some p => p
                             | None => 0
                             end) rows).
Proof.
  eexists. split; [reflexivity|].
  rewrite (Zsum_permutation _ (map Points (groupby_sum (with_points rows)))).
  - rewrite groupby_sum_total. unfold with_points. now rewrite map_map.
  - apply Permutation_map. now apply sort_values_permutation.
Qed.

(** C3. The output has exactly one entry for each distinct nation string
    of the input, strings compared as they are, and the points of an
    entry are the sum over the rows of its nation of the table's value
    for the rank, 0 where the rank is not in the table. *)
Theorem compute_points_one_entry_per_nation (rows : list (Row string)) :
  exists totals,
    compute_points_by_nation nargsort (Frame rows) = Ok (Frame totals)
    /\ NoDup (map by_Nation totals)
    /\ (forall n, In n (map by_Nation totals) <-> In n (map Nation rows))
    /\ (forall t, In t totals ->
          Points t
          = Zsum (map (fun r => match dict_get Z.eqb FIS_POINTS (Rank r) with
                                | Some p => p
                                | None => 0
                                end)
                    (filter (fun r => String.eqb (Nation r) (by_Nation t))
                       rows))).
Proof.
  eexists. split; [reflexivity|].
  pose proof (sort_values_permutation nargsort nargsort_permutes Points false
                (groupby_sum (with_points rows))) as Hperm.
  assert (Hkeys : Permutation
                    (map by_Nation
                       (sort_values nargsort Points false
                          (groupby_sum (with_points rows))))
                    (group_keys (with_points rows))).
  { rewrite <- groupby_sum_keys. now apply Permutation_map. }
  split; [|split].
  - eapply Permutation_NoDup; [symmetry; exact Hkeys|].
    apply group_keys_NoDup.
  - intros n.
    assert (E : map Nation rows = map fst (with_points rows))
      by (unfold with_points; now rewrite map_map).
    rewrite E, <- group_keys_In.
    split; apply Permutation_in; [exact Hkeys|now symmetry].
  - intros t Ht. apply (Permutation_in _ Hperm) in Ht.
    unfold groupby_sum in Ht. apply in_map_iff in Ht as (key & <- & _).
    cbn [Points by_Nation]. apply group_sum_of_rows.
Qed.

(** C4, as amended. The output is in descending order of the summed
    points, it is a rearrangement of the per-nation groups, and it is
    determined by the input: the same rows, given in whatever order, always
    yield the same output in the same order.  The order of nations with
    equal totals is the one the sort leaves; it is not stated to be the
    order in which the nations are first met, nor any other stable order. *)
Theorem compute_points_descending (rows : list (Row string)) :
  exists totals,
    compute_points_by_nation nargsort (Frame rows) = Ok (Frame totals)
    /\ StronglySorted (fun a b => Points b <= Points a) totals
    /\ Permutation totals (groupby_sum (with_points rows))
    /\ (forall rows',
          Permutation rows rows' ->
          compute_points_by_nation nargsort (Frame rows')
          = Ok (Frame totals)).
Proof.
  eexists. split; [reflexivity|]. split; [|split].
  - exact (sort_values_sorted nargsort nargsort_orders Points false _).
  - now apply sort_values_permutation.
  - intros rows' Hperm. unfold compute_points_by_nation.
    rewrite (groupby_sum_of_permutation (with_points rows')
               (with_points rows)); [reflexivity|].
    unfold with_points. apply Permutation_map. now symmetry.
Qed.
End Aggregator.

Lemma compute_points_sum_invariant_witness :
  argsort_permutes nargsort_first_first
  /\ exists totals,
       compute_points_by_nation nargsort_first_first (Frame sample_rows)
       = Ok (Frame totals)
       /\ Zsum (map Points totals)
          = Zsum (map (fun r => match dict_get Z.eqb FIS_POINTS (Rank r) with
                                | Some p => p
                                | None => 0
                                end) sample_rows).
Proof.
  split.
  - apply argsort_by_permutes.
  - apply (compute_points_sum_invariant nargsort_first_first
             (argsort_by_permutes false) sample_rows).
Defined.

Lemma compute_points_one_entry_per_nation_witness :
  argsort_permutes nargsort_last_first
  /\ exists totals,
       compute_points_by_nation nargsort_last_first (Frame sample_rows)
       = Ok (Frame totals)
       /\ NoDup (map by_Nation totals)
       /\ (forall n,
             In n (map by_Nation totals) <-> In n (map Nation sample_rows))
       /\ (forall t, In t totals ->
             Points t
             = Zsum (map (fun r =>
                            match dict_get Z.eqb FIS_POINTS (Rank r) with
                            | Some p => p
                            | None => 0
                            end)
                       (filter (fun r => String.eqb (Nation r) (by_Nation t))
                          sample_rows))).
Proof.
  split.
  - apply argsort_by_permutes.
  - apply (compute_points_one_entry_per_nation nargsort_last_first
             (argsort_by_permutes true) sample_rows).
Defined.

Lemma compute_points_descending_witness :
  (argsort_permutes nargsort_last_first /\ argsort_orders nargsort_last_first)
  /\ exists totals,
       compute_points_by_nation nargsort_last_first (Frame sample_rows)
       = Ok (Frame totals)
       /\ StronglySorted (fun a b => Points b <= Points a) totals
       /\ Permutation totals (groupby_sum (with_points sample_rows))
       /\ (forall rows',
             Permutation sample_rows rows' ->
             compute_points_by_nation nargsort_last_first (Frame rows')
             = Ok (Frame totals)).
Proof.
  split.
  - split; [apply argsort_by_permutes|apply argsort_by_orders].
  - apply (compute_points_descending nargsort_last_first
             (argsort_by_permutes true) (argsort_by_orders true) sample_rows).
Defined.

Example compute_sample_rows_first_first :
  compute_points_by_nation nargsort_first_first (Frame sample_rows)
  = Ok (Frame [mkTotal "AUT" 100; mkTotal "SUI" 100;
               mkTotal "aut" 45; mkTotal "GER" 0]).
Proof. reflexivity. Qed.

Example compute_sample_rows_last_first :
  compute_points_by_nation nargsort_last_first (Frame sample_rows)
  = Ok (Frame [mkTotal "SUI" 100; mkTotal "AUT" 100;
               mkTotal "aut" 45; mkTotal "GER" 0]).
Proof. reflexivity. Qed.

Example compute_scenario_B :
  compute_points_by_nation nargsort_first_first
    (Frame [mkRow 1 "AUT" "A"; mkRow 2 "AUT" "B"])
  = Ok (Frame [mkTotal "AUT" 180]).
Proof. reflexivity. Qed.

Example compute_no_rows (nargsort : list Z -> bool -> list nat) :
  argsort_permutes nargsort ->
  compute_points_by_nation nargsort (Frame []) = Ok (Frame []).
Proof.
  intros H. cbn. unfold sort_values. cbn.
  now rewrite (Permutation_nil (Permutation_sym (H [] false))).
Qed.

(** The frame [pd.DataFrame([])] has no column Rank. *)
Example compute_no_columns (nargsort : list Z -> bool -> list nat) :
  compute_points_by_nation nargsort NoColumns = Raise KeyError.
Proof. reflexivity. Qed.

Example compute_tied_rows_first_first :
  compute_points_by_nation nargsort_first_first (Frame tied_rows)
  = Ok (Frame [mkTotal "ITA" 100; mkTotal "SUI" 100;
               mkTotal "AUT" 80; mkTotal "FRA" 80]).
Proof. reflexivity. Qed.

Example compute_tied_rows_last_first :
  compute_points_by_nation nargsort_last_first (Frame tied_rows)
  = Ok (Frame [mkTotal "SUI" 100; mkTotal "ITA" 100;
               mkTotal "FRA" 80; mkTotal "AUT" 80]).
Proof. reflexivity. Qed.

(** C4, as stated, fails: the order of nations with equal totals is not a
    stable one.  In [tied_rows] the nations are met in the order AUT, FRA,
    ITA, SUI, which is also the order of their groups, and their totals
    read 80, 80, 100, 100; a stable tie-break would list ITA before SUI
    and AUT before FRA.  A sort that orders the column and rearranges its
    positions need not: on the column of these totals it may as well return
    SUI before ITA and FRA before AUT. *)
Lemma compute_tie_order_not_stable :
  ~ (forall nargsort,
       argsort_permutes nargsort -> argsort_orders nargsort ->
       compute_points_by_nation nargsort (Frame tied_rows)
       = Ok (Frame [mkTotal "ITA" 100; mkTotal "SUI" 100;
                    mkTotal "AUT" 80; mkTotal "FRA" 80])).
Proof.
  intros H.
  pose proof (H nargsort_last_first (argsort_by_permutes true)
                (argsort_by_orders true)) as E.
  rewrite compute_tied_rows_last_first in E. discriminate E.
Qed.

(** ** Result normalizer *)

Section Normalizer.
Variable int_of_str : string -> option Z.
Variable str_strip : string -> string.
Variable nargsort : list Z -> bool -> list nat.
Hypothesis nargsort_permutes : argsort_permutes nargsort.
Hypothesis nargsort_orders : argsort_orders nargsort.


Lemma loop_body_dict (kvs : list (string * json)) :
  loop_body int_of_str str_strip (JDict kvs) =
  match try_int int_of_str (field kvs "RankingFinal") with
  | Raise e => Raise e
  | Ok None => Ok None
  | Ok (Some rank) =>
      if Z.leb 1 rank && Z.leb rank 30
      then if truthy (field kvs "NationCC3")
           then match item_name str_strip (JDict kvs) with
                | Ok name =>
                    Ok (Some (mkRow rank (field kvs "NationCC3") name))
                | Raise e => Raise e
                end
           else Ok None
      else Ok None
  end.
Proof.
  unfold loop_body, py_get, field, bind.
  destruct (try_int _ _) as [[rank|]|e]; try reflexivity.
  destruct (Z.leb 1 rank && Z.leb rank 30); [|reflexivity]. cbn [negb].
  destruct (truthy _); reflexivity.
Qed.

Lemma loop_body_selection (item : json) (appended : option (Row json)) :
  loop_body int_of_str str_strip item = Ok appended ->
  map rank_nation (appended_rows appended) = selection int_of_str item.
Proof.
  destruct item as [| | | | | |kvs]; try discriminate.
  rewrite loop_body_dict. unfold selection, field, try_int.
  destruct (dict_get String.eqb kvs "RankingFinal") as [rank_val|].
  - destruct (py_int int_of_str rank_val) as [rank|e].
    + destruct (Z.leb 1 rank && Z.leb rank 30).
      * destruct (dict_get String.eqb kvs "NationCC3") as [nation|].
        -- destruct (truthy nation).
           ++ destruct (item_name _ _); [|discriminate].
              now intros [= <-].
           ++ now intros [= <-].
        -- now intros [= <-].
      * intros [= <-]. now destruct (dict_get String.eqb kvs "NationCC3").
    + destruct (dict_get String.eqb kvs "NationCC3");
        destruct e; (discriminate || now intros [= <-]).
  - cbn. now intros [= <-].
Qed.

Lemma for_items_rows (items : list json) (rows out : list (Row json)) :
  for_items int_of_str str_strip items rows = Ok out ->
  exists appended,
    Forall2 (fun item a => loop_body int_of_str str_strip item = Ok a)
      items appended
    /\ out = rows ++ flat_map appended_rows appended.
Proof.
  revert rows. induction items as [|item items IH]; intros rows; cbn.
  - intros [= <-]. exists []. split; [constructor|]. now rewrite app_nil_r.
  - unfold bind at 1.
    destruct (loop_body int_of_str str_strip item) as [a|e] eqn:E;
      [|discriminate].
    intros H. apply IH in H as (appended & Hall & ->).
    exists (a :: appended). split; [now constructor|].
    destruct a; cbn; [now rewrite <- app_assoc|reflexivity].
Qed.

Lemma for_items_total (items : list json) (rows : list (Row json)) :
  Forall (fun item => exists a, loop_body int_of_str str_strip item = Ok a)
    items ->
  exists out, for_items int_of_str str_strip items rows = Ok out.
Proof.
  intros H. revert rows.
  induction H as [|item items [a E] _ IH]; intros rows; cbn.
  - now exists rows.
  - rewrite E. cbn. apply IH.
Qed.

Lemma for_items_selection (items : list json) (out : list (Row json)) :
  for_items int_of_str str_strip items [] = Ok out ->
  map rank_nation out = flat_map (selection int_of_str) items.
Proof.
  intros H. apply for_items_rows in H as (appended & Hall & ->). cbn.
  induction Hall as [|item a items appended E _ IH]; [reflexivity|].
  cbn. rewrite map_app, IH. f_equal. now apply loop_body_selection.
Qed.

(** What a call that returns went through. *)
Lemma parse_results_returns (data : json) (df : DataFrame (Row json)) :
  parse_results_from_json int_of_str str_strip nargsort data = Ok df ->
  exists results items rows,
    py_get data "Results" (JList []) = Ok results
    /\ py_iter results = Ok items
    /\ for_items int_of_str str_strip items [] = Ok rows
    /\ df = match rows with
            | [] => NoColumns
            | _ :: _ => Frame (sort_values nargsort Rank true rows)
            end.
Proof.
  unfold parse_results_from_json, bind.
  destruct (py_get data "Results" (JList [])) as [results|] eqn:Hget;
    [|discriminate].
  destruct (py_iter results) as [items|] eqn:Hiter; [|discriminate].
  destruct (for_items int_of_str str_strip items []) as [rows|] eqn:Hfor;
    [|discriminate].
  intros H. exists results, items, rows.
  split; [reflexivity|]. split; [exact Hiter|]. split; [exact Hfor|].
  destruct rows; cbn in H; now injection H as <-.
Qed.
Lemma parse_results_rows (data : json) (df : DataFrame (Row json)) :
  parse_results_from_json int_of_str str_strip nargsort data = Ok df ->
  exists results items rows,
    py_get data "Results" (JList []) = Ok results
    /\ py_iter results = Ok items
    /\ for_items int_of_str str_strip items [] = Ok rows
    /\ Permutation (frame_rows df) rows.
Proof.
  intros H.
  apply parse_results_returns in H as (results & items & rows & H1 & H2 & H3 & ->).
  exists results, items, rows. repeat split; try assumption.
  destruct rows as [|row rows]; [constructor|].
  cbn [frame_rows]. now apply sort_values_permutation.
Qed.

Lemma selection_iff (item : json) (rank : Z) (nation : json) :
  In (rank, nation) (selection int_of_str item) <->
  exists kvs rank_val,
    item = JDict kvs
    /\ dict_get String.eqb kvs "RankingFinal" = Some rank_val
    /\ py_int int_of_str rank_val = Ok rank
    /\ 1 <= rank <= 30
    /\ dict_get String.eqb kvs "NationCC3" = Some nation
    /\ truthy nation = true.
Proof.
  split.
  - destruct item as [| | | | | |kvs]; try contradiction.
    unfold selection.
    destruct (dict_get String.eqb kvs "RankingFinal") as [rank_val|] eqn:Hr;
      [|contradiction].
    destruct (dict_get String.eqb kvs "NationCC3") as [nation'|] eqn:Hn;
      [|contradiction].
    destruct (py_int int_of_str rank_val) as [rank'|] eqn:Hi;
      [|contradiction].
    destruct (Z.leb 1 rank' && Z.leb rank' 30 && truthy nation') eqn:E;
      [|contradiction].
    intros [[= <- <-]|[]].
    apply andb_true_iff in E as [E Ht]. apply andb_true_iff in E as [E1 E2].
    exists kvs, rank_val. repeat split; auto; lia.
  - intros (kvs & rank_val & -> & Hr & Hi & Hrange & Hn & Ht).
    unfold selection. rewrite Hr, Hn, Hi, Ht.
    replace (Z.leb 1 rank) with true by lia.
    replace (Z.leb rank 30) with true by lia.
    now left.
Qed.

Lemma selection_at_most_one (item : json) :
  (List.length (selection int_of_str item) <= 1)%nat.
Proof.
  unfold selection. destruct item; cbn; try lia.
  repeat match goal with
  | |- context [match ?x with _ => _ end] => destruct x; cbn; try lia
  end.
Qed.


Lemma item_name_ok (kvs : list (string * json)) :
  truthy (field kvs "DisplayName")
  || (is_text_or_falsy (field kvs "FirstName")
      && is_text_or_falsy (field kvs "LastName")) = true ->
  exists name, item_name str_strip (JDict kvs) = Ok name.
Proof.
  unfold item_name, py_get, bind. fold (field kvs "DisplayName").
  fold (field kvs "FirstName"). fold (field kvs "LastName").
  destruct (truthy (field kvs "DisplayName")); [eexists; reflexivity|].
  cbn [orb]. intros H. apply andb_true_iff in H as [Hf Hl].
  assert (Hor : forall v, is_text_or_falsy v = true ->
                  exists t, py_or v (JStr "") = JStr t).
  { intros v Hv. unfold py_or.
    destruct (truthy v) eqn:Ht; [|eexists; reflexivity].
    destruct v; try (eexists; reflexivity);
      unfold is_text_or_falsy in Hv; rewrite Ht in Hv; discriminate. }
  destruct (Hor _ Hf) as [a ->]. destruct (Hor _ Hl) as [b ->].
  cbn. eexists; reflexivity.
Qed.

Lemma selected_when_kept (kvs : list (string * json)) (rank : Z) :
  try_int int_of_str (field kvs "RankingFinal") = Ok (Some rank) ->
  Z.leb 1 rank && Z.leb rank 30 = true ->
  truthy (field kvs "NationCC3") = true ->
  selection int_of_str (JDict kvs) = [(rank, field kvs "NationCC3")].
Proof.
  unfold selection, field, try_int.
  destruct (dict_get String.eqb kvs "RankingFinal") as [rank_val|];
    [|discriminate].
  destruct (py_int int_of_str rank_val) as [rank'|[]]; try discriminate.
  intros [= ->] Hrange.
  destruct (dict_get String.eqb kvs "NationCC3") as [nation|];
    [|discriminate].
  intros Ht. now rewrite Hrange, Ht.
Qed.

Lemma loop_body_ok (item : json) :
  entry_ok int_of_str item = true ->
  exists appended, loop_body int_of_str str_strip item = Ok appended.
Proof.
  destruct item as [| | | | | |kvs]; try discriminate.
  cbn [entry_ok]. intros H. apply andb_true_iff in H as [Hrank Hname].
  rewrite loop_body_dict.
  assert (Htry : exists c,
             try_int int_of_str (field kvs "RankingFinal") = Ok c).
  { unfold try_int, py_int.
    destruct (field kvs "RankingFinal") as [| | |f| | |];
      try (eexists; reflexivity).
    - destruct f; try discriminate; eexists; reflexivity.
    - destruct (int_of_str s); eexists; reflexivity. }
  destruct Htry as [[rank|] Htry]; rewrite Htry; [|eexists; reflexivity].
  destruct (Z.leb 1 rank && Z.leb rank 30) eqn:Hrange;
    [|eexists; reflexivity].
  destruct (truthy (field kvs "NationCC3")) eqn:Ht; [|eexists; reflexivity].
  rewrite (selected_when_kept kvs rank Htry Hrange Ht) in Hname.
  cbn [orb] in Hname.
  destruct (item_name_ok kvs Hname) as [name ->]. eexists; reflexivity.
Qed.

Lemma loop_body_skips (kvs : list (string * json)) :
  py_int int_of_str (field kvs "RankingFinal") = Raise TypeError
  \/ py_int int_of_str (field kvs "RankingFinal") = Raise ValueError
  \/ ((exists rank, py_int int_of_str (field kvs "RankingFinal") = Ok rank)
      /\ truthy (field kvs "NationCC3") = false) ->
  loop_body int_of_str str_strip (JDict kvs) = Ok None.
Proof.
  rewrite loop_body_dict. unfold try_int.
  intros [-> | [-> | [[rank ->] ->]]]; try reflexivity.
  now destruct (Z.leb 1 rank && Z.leb rank 30).
Qed.

Lemma parse_results_total (data : json) :
  document_ok int_of_str data = true ->
  exists df,
    parse_results_from_json int_of_str str_strip nargsort data = Ok df.
Proof.
  destruct data as [| | | | | |kvs]; try discriminate.
  unfold document_ok, parse_results_from_json, py_get.
  assert (Hret : forall items,
             forallb (entry_ok int_of_str) items = true ->
             exists df,
               (rows <- for_items int_of_str str_strip items [] ;;
                let df := DataFrame_of_records rows in
                if df_empty df then Ok df
                else Ok (Frame (sort_values nargsort Rank true
                                  (frame_rows df)))) = Ok df).
  { intros items Hitems.
    destruct (for_items_total items []) as [rows ->].
    - apply Forall_forall. intros item Hin. apply loop_body_ok.
      rewrite forallb_forall in Hitems. now apply Hitems.
    - cbn. destruct (df_empty _); eexists; reflexivity. }
  destruct (dict_get String.eqb kvs "Results") as [results|].
  - destruct results; try discriminate. intros H. cbn. now apply Hret.
  - intros _. cbn. eexists; reflexivity.
Qed.

(** C8, as amended. The call returns a frame, and raises nothing, for
    every document that is an object whose Results value, if present, is a
    list of objects in which no RankingFinal is an infinite float and every
    selected entry has a DisplayName or only text or nothing as FirstName
    and LastName.  An entry whose RankingFinal is missing, null or not
    convertible (TypeError or ValueError), or whose NationCC3 is missing or
    empty, is skipped without an exception. *)
Theorem parse_results_returns_on_well_formed (data : json) :
  document_ok int_of_str data = true ->
  (exists df,
     parse_results_from_json int_of_str str_strip nargsort data = Ok df)
  /\ (forall kvs,
        py_int int_of_str (field kvs "RankingFinal") = Raise TypeError
        \/ py_int int_of_str (field kvs "RankingFinal") = Raise ValueError
        \/ ((exists rank,
               py_int int_of_str (field kvs "RankingFinal") = Ok rank)
            /\ truthy (field kvs "NationCC3") = false) ->
        loop_body int_of_str str_strip (JDict kvs) = Ok None).
Proof.
  intros Hok. split; [now apply parse_results_total|exact loop_body_skips].
Qed.

(** C2, as amended. A document without the key Results yields the empty
    frame.  The call returns for a document whose Results is a list of
    well-formed objects, and whenever it returns, the rank and nation of
    its rows are, up to their order, those selected from the entries of
    Results: one row for each entry whose RankingFinal converts to an
    integer from 1 to 30 and whose NationCC3 is present and non-empty, and
    no row for any other entry. *)
Theorem parse_results_emits_selected (data : json) :
  (forall kvs,
     data = JDict kvs -> dict_get String.eqb kvs "Results" = None ->
     parse_results_from_json int_of_str str_strip nargsort data
     = Ok NoColumns)
  /\ (document_ok int_of_str data = true ->
      exists df,
        parse_results_from_json int_of_str str_strip nargsort data = Ok df)
  /\ (forall df,
        parse_results_from_json int_of_str str_strip nargsort data = Ok df ->
        exists results items,
          py_get data "Results" (JList []) = Ok results
          /\ py_iter results = Ok items
          /\ Permutation (map rank_nation (frame_rows df))
               (flat_map (selection int_of_str) items))
  /\ (forall item rank nation,
        In (rank, nation) (selection int_of_str item) <->
        exists kvs rank_val,
          item = JDict kvs
          /\ dict_get String.eqb kvs "RankingFinal" = Some rank_val
          /\ py_int int_of_str rank_val = Ok rank
          /\ 1 <= rank <= 30
          /\ dict_get String.eqb kvs "NationCC3" = Some nation
          /\ truthy nation = true)
  /\ (forall item, (List.length (selection int_of_str item) <= 1)%nat).
Proof.
  split; [|split; [|split; [|split]]].
  - intros kvs -> Hnone. unfold parse_results_from_json, py_get.
    now rewrite Hnone.
  - apply parse_results_total.
  - intros df H.
    apply parse_results_rows in H as (results & items & rows & H1 & H2 & H3 & Hp).
    exists results, items. repeat split; try assumption.
    rewrite <- (for_items_selection _ _ H3). now apply Permutation_map.
  - exact selection_iff.
  - exact selection_at_most_one.
Qed.

(** C7, as amended. When the call returns, its rows are in ascending order
    of rank and are a rearrangement of the rows the loop appended; nothing
    is stated about the order of rows of equal rank. *)
Theorem parse_results_sorted_by_rank (data : json)
    (df : DataFrame (Row json)) :
  parse_results_from_json int_of_str str_strip nargsort data = Ok df ->
  StronglySorted (fun a b => Rank a <= Rank b) (frame_rows df)
  /\ exists results items rows,
       py_get data "Results" (JList []) = Ok results
       /\ py_iter results = Ok items
       /\ for_items int_of_str str_strip items [] = Ok rows
       /\ Permutation (frame_rows df) rows.
Proof.
  intros H. split; [|now apply parse_results_rows].
  apply parse_results_returns in H as (results & items & rows & _ & _ & _ & ->).
  destruct rows as [|row rows]; [constructor|]. cbn [frame_rows].
  exact (sort_values_sorted nargsort nargsort_orders Rank true _).
Qed.
End Normalizer.

Example parse_sample_document_first_first :
  parse_results_from_json int_of_decimal strip_blanks nargsort_first_first
    sample_document
  = Ok (Frame [mkRow 1 (JStr "AUT") (JStr "A");
               mkRow 2 (JStr "AUT") (JStr "B");
               mkRow 2 (JStr "ITA") (JStr "D");
               mkRow 5 (JStr "SUI") (JStr "Jane Doe")]).
Proof. reflexivity. Qed.

Example parse_sample_document_last_first :
  parse_results_from_json int_of_decimal strip_blanks nargsort_last_first
    sample_document
  = Ok (Frame [mkRow 1 (JStr "AUT") (JStr "A");
               mkRow 2 (JStr "ITA") (JStr "D");
               mkRow 2 (JStr "AUT") (JStr "B");
               mkRow 5 (JStr "SUI") (JStr "Jane Doe")]).
Proof. reflexivity. Qed.

Example parse_empty_results :
  parse_results_from_json int_of_decimal strip_blanks nargsort_first_first
    (JDict [("Results", JList [])])
  = Ok NoColumns.
Proof. reflexivity. Qed.

Lemma parse_results_emits_selected_witness :
  argsort_permutes nargsort_first_first
  /\ exists df,
       parse_results_from_json int_of_decimal strip_blanks
         nargsort_first_first sample_document = Ok df
       /\ Permutation (map rank_nation (frame_rows df))
            [(2, JStr "AUT"); (1, JStr "AUT"); (5, JStr "SUI");
             (2, JStr "ITA")].
Proof.
  split; [apply argsort_by_permutes|].
  destruct (parse_results_emits_selected int_of_decimal strip_blanks
              nargsort_first_first (argsort_by_permutes false)
              sample_document) as (_ & _ & Hrows & _).
  destruct (Hrows _ parse_sample_document_first_first)
    as (results & items & Hget & Hiter & Hperm).
  injection Hget as <-. injection Hiter as <-.
  eexists. split; [reflexivity|]. exact Hperm.
Defined.

Example for_items_race_document :
  for_items int_of_decimal strip_blanks (map race_entry race_results) []
  = Ok (map race_row race_results).
Proof. vm_compute. reflexivity. Qed.

Example parse_race_document_last_first :
  parse_results_from_json int_of_decimal strip_blanks nargsort_last_first
    race_document
  = Ok (Frame (map race_row
                 (race_first_14 ++ [race_tied_b; race_tied_a]
                  ++ race_last_14))).
Proof. vm_compute. reflexivity. Qed.

Lemma parse_results_sorted_by_rank_witness :
  (argsort_permutes nargsort_last_first /\ argsort_orders nargsort_last_first)
  /\ parse_results_from_json int_of_decimal strip_blanks nargsort_last_first
       race_document
     = Ok (Frame (map race_row
                    (race_first_14 ++ [race_tied_b; race_tied_a]
                     ++ race_last_14)))
  /\ StronglySorted (fun a b => Rank a <= Rank b)
       (map race_row
          (race_first_14 ++ [race_tied_b; race_tied_a] ++ race_last_14)).
Proof.
  split; [split; [apply argsort_by_permutes|apply argsort_by_orders]|].
  split; [exact parse_race_document_last_first|].
  apply (parse_results_sorted_by_rank int_of_decimal strip_blanks
           nargsort_last_first (argsort_by_permutes true)
           (argsort_by_orders true) race_document
           (Frame (map race_row
                     (race_first_14 ++ [race_tied_b; race_tied_a]
                      ++ race_last_14)))
           parse_race_document_last_first).
Defined.

Example parse_tied_document_first_first :
  parse_results_from_json int_of_decimal strip_blanks nargsort_first_first
    tied_document
  = Ok (Frame (map race_row
                 [(1, "ITA", "C"); (1, "SUI", "D");
                  (2, "AUT", "A"); (2, "FRA", "B")])).
Proof. reflexivity. Qed.

Example parse_tied_document_last_first :
  parse_results_from_json int_of_decimal strip_blanks nargsort_last_first
    tied_document
  = Ok (Frame (map race_row
                 [(1, "SUI", "D"); (1, "ITA", "C");
                  (2, "FRA", "B"); (2, "AUT", "A")])).
Proof. reflexivity. Qed.

(** C7, as stated, fails: rows of equal rank need not keep the order of
    their entries.  The entries of [tied_document] have the ranks 2, 2, 1,
    1; sorted by rank with ties in the order of the entries they would read
    C, D, A, B.  A sort that orders the column and rearranges its positions
    need not return them so: on this column it may as well return D, C, B,
    A. *)
Lemma parse_results_tie_order_not_kept :
  ~ (forall nargsort,
       argsort_permutes nargsort -> argsort_orders nargsort ->
       parse_results_from_json int_of_decimal strip_blanks nargsort
         tied_document
       = Ok (Frame (map race_row
                      [(1, "ITA", "C"); (1, "SUI", "D");
                       (2, "AUT", "A"); (2, "FRA", "B")]))).
Proof.
  intros H.
  pose proof (H nargsort_last_first (argsort_by_permutes true)
                (argsort_by_orders true)) as E.
  rewrite parse_tied_document_last_first in E. discriminate E.
Qed.

(** C2, as stated, fails: an entry can meet both conditions and yet leave
    no row.  The entry [numeric_name_entry] has the rank 1 and the nation
    AUT, so it is selected; it has no DisplayName and its FirstName is a
    number, so building the name raises TypeError and the call returns no
    frame at all. *)
Lemma parse_results_selected_entry_without_row :
  (forall int_of_str,
     selection int_of_str numeric_name_entry = [(1, JStr "AUT")])
  /\ (forall int_of_str str_strip nargsort,
        parse_results_from_json int_of_str str_strip nargsort
          (JDict [("Results", JList [numeric_name_entry])])
        = Raise TypeError).
Proof. split; reflexivity. Qed.

Lemma parse_results_returns_on_well_formed_witness :
  document_ok int_of_decimal sample_document = true
  /\ exists df,
       parse_results_from_json int_of_decimal strip_blanks
         nargsort_first_first sample_document = Ok df.
Proof.
  split; [reflexivity|].
  exact (proj1 (parse_results_returns_on_well_formed int_of_decimal
                  strip_blanks nargsort_first_first sample_document
                  eq_refl)).
Defined.

(** C8, as stated, fails: an entry that is not an object, a Results value
    that cannot be iterated, a FirstName that is a number and a RankingFinal
    that is an infinite float each make the call raise. *)
Lemma parse_results_can_raise :
  parse_results_from_json int_of_decimal strip_blanks nargsort_first_first
    (JDict [("Results", JList [JNull])])
  = Raise AttributeError
  /\ parse_results_from_json int_of_decimal strip_blanks nargsort_first_first
       (JDict [("Results", JNull)])
     = Raise TypeError
  /\ parse_results_from_json int_of_decimal strip_blanks nargsort_first_first
       (JDict [("Results", JList [
          JDict [("RankingFinal", JInt 1); ("NationCC3", JStr "AUT");
                 ("FirstName", JInt 7)] ])])
     = Raise TypeError
  /\ parse_results_from_json int_of_decimal strip_blanks nargsort_first_first
       (JDict [("Results", JList [
          JDict [("RankingFinal", JFloat (S754_infinity false));
                 ("NationCC3", JStr "AUT"); ("DisplayName", JStr "A")] ])])
     = Raise OverflowError.
Proof. repeat split. Qed.


(** * Further properties of the code *)

(** ** The fetch URL *)

Section FetchUrl.
Variable is_decimal : N -> bool.
Hypothesis is_decimal_ascii : ascii_decimals is_decimal.

Lemma re_search_skip (c : N) (s : list N) :
  match_here is_decimal (c :: s) = None ->
  re_search is_decimal (c :: s) = re_search is_decimal s.
Proof. intros H. rewrite re_search_unfold. now rewrite H. Qed.

Lemma extract_api_url_digits (event_id : list N) :
  event_id <> [] -> all_digits is_decimal event_id ->
  extract_event_id_from_url is_decimal (api_url event_id) = Ok event_id.
Proof.
  intros Hne Hd. unfold extract_event_id_from_url, api_url.
  change (codepoints "https://afeeds.orf.at/alpine-api/api/sportevents/")
    with (codepoints "https://afeeds.orf.at/alpine-api/api"
          ++ codepoints "/sportevents/").
  rewrite <- app_assoc.
  set (suf := codepoints "/sportevents/" ++ event_id
              ++ codepoints "?detailtype=end").
  assert (E : match_here is_decimal suf = Some event_id).
  { apply match_here_spec.
    exists (codepoints "/sportevents/"), (codepoints "?detailtype=end").
    repeat split; auto.
    - now right.
    - intros (c & s' & [= <- _] & Hc).
      apply is_decimal_ascii in Hc; [|reflexivity]. now destruct Hc. }
  assert (Hskip : forall pre,
             Forall (fun s => match_here is_decimal (s ++ suf) = None)
                    (map (fun n => skipn n pre) (seq 0 (List.length pre))) ->
             re_search is_decimal (pre ++ suf) = re_search is_decimal suf).
  { induction pre as [|c pre IH]; [reflexivity|].
    cbn [List.length seq map skipn]. intros H.
    inversion H as [|? ? Hc Hrest]; subst.
    cbn [app]. rewrite re_search_skip by exact Hc. apply IH.
    rewrite <- seq_shift, map_map in Hrest. exact Hrest. }
  rewrite Hskip.
  - rewrite re_search_unfold. now rewrite E.
  - subst suf. vm_compute codepoints.
    repeat (constructor; [reflexivity|]). constructor.
Qed.

(** X1. The identifier extracted from a URL survives the trip through the
    address the fetch builds from it: extracting from
    [API_TEMPLATE.format(event_id=id)] gives [id] again. *)
Theorem extract_api_url_round_trip (url event_id : list N) :
  extract_event_id_from_url is_decimal url = Ok event_id ->
  extract_event_id_from_url is_decimal (api_url event_id) = Ok event_id.
Proof.
  intros H. apply extract_found_digits in H as [Hne Hd].
  now apply extract_api_url_digits.
Qed.
End FetchUrl.

Lemma extract_api_url_round_trip_witness :
  ascii_decimals decimal_with_arabic_indic
  /\ extract_event_id_from_url decimal_with_arabic_indic
       (codepoints "https://sport.orf.at/#/event/12" ++ [1635; 120]%N)
     = Ok [49; 50; 1635]%N
  /\ extract_event_id_from_url decimal_with_arabic_indic
       (api_url [49; 50; 1635]%N)
     = Ok [49; 50; 1635]%N.
Proof.
  split; [exact decimal_with_arabic_indic_ascii|].
  split; [reflexivity|].
  apply (extract_api_url_round_trip decimal_with_arabic_indic
           decimal_with_arabic_indic_ascii
           (codepoints "https://sport.orf.at/#/event/12" ++ [1635; 120]%N)).
  reflexivity.
Defined.

(** ** Result normalizer: exceptions, rows and emptiness *)

Section NormalizerEdges.
Variable int_of_str : string -> option Z.
Variable str_strip : string -> string.
Variable nargsort : list Z -> bool -> list nat.
Hypothesis nargsort_permutes : argsort_permutes nargsort.

Lemma item_name_raises (kvs : list (string * json)) (e : exn) :
  item_name str_strip (JDict kvs) = Raise e -> e = TypeError.
Proof.
  unfold item_name, py_get, bind, py_add_str.
  destruct (truthy _); [discriminate|].
  destruct (py_or _ (JStr "")); try (now intros [= <-]).
  destruct (py_or _ (JStr "")); now intros [= <-].
Qed.

Lemma try_int_raises (v : json) (e : exn) :
  try_int int_of_str v = Raise e -> e = OverflowError.
Proof.
  unfold try_int, py_int.
  destruct v as [| | |f|s| |]; try discriminate.
  - destruct f; try discriminate. now intros [= <-].
  - destruct (int_of_str s); discriminate.
Qed.

Lemma loop_body_raises (item : json) (e : exn) :
  loop_body int_of_str str_strip item = Raise e ->
  (e = AttributeError /\ is_dict item = false)
  \/ (is_dict item = true /\ (e = TypeError \/ e = OverflowError)).
Proof.
  destruct item as [| | | | | |kvs];
    try (intros [= <-]; left; now split).
  rewrite loop_body_dict. intros H. right. split; [reflexivity|].
  destruct (try_int int_of_str (field kvs "RankingFinal"))
    as [[rank|]|e'] eqn:Ht.
  - destruct (Z.leb 1 rank && Z.leb rank 30); [|discriminate].
    destruct (truthy (field kvs "NationCC3")); [|discriminate].
    destruct (item_name str_strip (JDict kvs)) as [name|e'] eqn:E;
      [discriminate|].
    injection H as <-. left. now apply (item_name_raises kvs).
  - discriminate.
  - injection H as <-. right. now apply (try_int_raises _ _ Ht).
Qed.

Lemma for_items_raises (items : list json) (rows : list (Row json))
    (e : exn) :
  for_items int_of_str str_strip items rows = Raise e ->
  exists item, In item items
               /\ loop_body int_of_str str_strip item = Raise e.
Proof.
  revert rows. induction items as [|item items IH]; intros rows; cbn;
    [discriminate|].
  unfold bind at 1.
  destruct (loop_body int_of_str str_strip item) as [a|e'] eqn:E.
  - intros H. apply IH in H as (item' & Hin & H). exists item'. auto.
  - intros [= <-]. exists item. auto.
Qed.

(** X2. The only exceptions that leave the normalizer are AttributeError,
    TypeError and OverflowError; a ValueError never does.  When the
    document is an object whose Results is a list of objects, an
    AttributeError is excluded as well. *)
Theorem parse_results_raises_only (data : json) (e : exn) :
  parse_results_from_json int_of_str str_strip nargsort data = Raise e ->
  (e = AttributeError \/ e = TypeError \/ e = OverflowError)
  /\ (forall kvs items,
        data = JDict kvs ->
        dict_get String.eqb kvs "Results" = Some (JList items) ->
        forallb is_dict items = true ->
        e = TypeError \/ e = OverflowError).
Proof.
  unfold parse_results_from_json, bind.
  destruct (py_get data "Results" (JList [])) as [results|e1] eqn:Hget.
  - destruct (py_iter results) as [items|e2] eqn:Hiter.
    + destruct (for_items int_of_str str_strip items []) as [rows|e3] eqn:Hfor.
      * cbn. destruct (df_empty _); discriminate.
      * intros [= <-].
        apply for_items_raises in Hfor as (item & Hin & Hbody).
        apply loop_body_raises in Hbody. split; [intuition|].
        intros kvs items' -> Hres Hdicts. cbn in Hget. rewrite Hres in Hget.
        injection Hget as <-. injection Hiter as <-.
        rewrite forallb_forall in Hdicts. specialize (Hdicts _ Hin).
        destruct Hbody as [[_ Hnd]|[_ H]]; [congruence|exact H].
    + intros [= <-]. destruct results; try discriminate;
        injection Hiter as <-; (split; [auto|]);
        intros kvs items -> Hres _; cbn in Hget; rewrite Hres in Hget;
        discriminate.
  - intros [= <-]. destruct data; try discriminate;
      injection Hget as <-; (split; [auto|]); intros; discriminate.
Qed.

Lemma selection_total_length (items : list json) :
  (List.length (flat_map (selection int_of_str) items)
   <= List.length items)%nat.
Proof.
  induction items as [|item items IH]; cbn; [lia|].
  rewrite length_app.
  pose proof (selection_at_most_one int_of_str item). lia.
Qed.

(** X3. Every row the normalizer returns has a rank from 1 to 30 and a
    nation cell that is truthy (for text: not empty). *)
Theorem parse_results_rows_in_window (data : json)
    (df : DataFrame (Row json)) :
  parse_results_from_json int_of_str str_strip nargsort data = Ok df ->
  Forall (fun r => 1 <= Rank r <= 30 /\ truthy (Nation r) = true)
    (frame_rows df).
Proof.
  intros H.
  apply (parse_results_rows int_of_str str_strip nargsort nargsort_permutes)
    in H as (results & items & rows & _ & _ & Hfor & Hperm).
  apply Forall_forall. intros r Hr.
  apply (Permutation_in _ Hperm) in Hr.
  apply (in_map rank_nation) in Hr.
  rewrite (for_items_selection _ _ _ _ Hfor) in Hr.
  apply in_flat_map in Hr as (item & _ & Hsel).
  apply selection_iff in Hsel as (kvs & rank_val & _ & _ & _ & Hrange & _ & Ht).
  now split.
Qed.

(** X4. When the normalizer returns, it has as many rows as there are
    selected entries, never more than Results has entries; the frame is
    empty exactly when no entry is selected, and it is then the frame
    without columns. *)
Theorem parse_results_empty_iff (data : json) (df : DataFrame (Row json)) :
  parse_results_from_json int_of_str str_strip nargsort data = Ok df ->
  exists results items,
    py_get data "Results" (JList []) = Ok results
    /\ py_iter results = Ok items
    /\ List.length (frame_rows df)
       = List.length (flat_map (selection int_of_str) items)
    /\ (List.length (frame_rows df) <= List.length items)%nat
    /\ (df_empty df = true <-> flat_map (selection int_of_str) items = [])
    /\ (df_empty df = true <-> df = NoColumns).
Proof.
  intros H.
  pose proof (parse_results_rows int_of_str str_strip nargsort
                nargsort_permutes _ _ H)
    as (results & items & rows & Hget & Hiter & Hfor & Hperm).
  apply parse_results_returns in H
    as (results' & items' & rows' & Hget' & Hiter' & Hfor' & Hdf).
  rewrite Hget in Hget'. injection Hget' as <-.
  rewrite Hiter in Hiter'. injection Hiter' as <-.
  rewrite Hfor in Hfor'. injection Hfor' as <-.
  pose proof (for_items_selection _ _ _ _ Hfor) as Hsel.
  assert (Hlen : List.length (frame_rows df)
                 = List.length (flat_map (selection int_of_str) items)).
  { rewrite (Permutation_length Hperm), <- Hsel. now rewrite length_map. }
  exists results, items. repeat split; try assumption.
  - rewrite Hlen. apply selection_total_length.
  - unfold df_empty. intros He.
    destruct (frame_rows df); [|discriminate].
    now apply length_zero_iff_nil.
  - intros He. rewrite He in Hlen. unfold df_empty.
    destruct (frame_rows df); [reflexivity|discriminate].
  - unfold df_empty. intros He. destruct rows as [|row rows]; [exact Hdf|].
    apply Permutation_length in Hperm.
    destruct (frame_rows df); [discriminate|discriminate].
  - now intros ->.
Qed.

(** X5. A Results value that is not a list: null, a boolean or a number
    raises TypeError; the empty text and the empty object, like the empty
    list, give the empty frame; a non-empty text or object raises
    AttributeError, since its characters or keys have no [get]. *)
Theorem parse_results_odd_results (kvs : list (string * json)) (v : json) :
  dict_get String.eqb kvs "Results" = Some v ->
  ((v = JNull \/ (exists b, v = JBool b) \/ (exists n, v = JInt n)
    \/ (exists f, v = JFloat f)) ->
   parse_results_from_json int_of_str str_strip nargsort (JDict kvs)
   = Raise TypeError)
  /\ ((v = JStr "" \/ v = JDict [] \/ v = JList []) ->
      parse_results_from_json int_of_str str_strip nargsort (JDict kvs)
      = Ok NoColumns)
  /\ (((exists c s, v = JStr (String c s))
       \/ (exists kv d, v = JDict (kv :: d))) ->
      parse_results_from_json int_of_str str_strip nargsort (JDict kvs)
      = Raise AttributeError).
Proof.
  intros Hres. unfold parse_results_from_json, py_get. rewrite Hres.
  split; [|split].
  - intros [-> | [[b ->] | [[n ->] | [f ->]]]]; reflexivity.
  - intros [-> | [-> | ->]]; reflexivity.
  - intros [(c & s & ->) | (kv & d & ->)]; reflexivity.
Qed.
End NormalizerEdges.

Lemma parse_results_raises_only_witness :
  parse_results_from_json int_of_decimal strip_blanks nargsort_first_first
    (JDict [("Results", JNull)]) = Raise TypeError
  /\ (TypeError = AttributeError \/ TypeError = TypeError
      \/ TypeError = OverflowError).
Proof.
  split; [reflexivity|].
  apply (parse_results_raises_only int_of_decimal strip_blanks
           nargsort_first_first (JDict [("Results", JNull)]) TypeError
           eq_refl).
Defined.

Lemma parse_results_rows_in_window_witness :
  argsort_permutes nargsort_first_first
  /\ exists df,
       parse_results_from_json int_of_decimal strip_blanks
         nargsort_first_first sample_document = Ok df
       /\ Forall (fun r => 1 <= Rank r <= 30 /\ truthy (Nation r) = true)
            (frame_rows df).
Proof.
  split; [apply argsort_by_permutes|].
  eexists. split; [exact parse_sample_document_first_first|].
  apply (parse_results_rows_in_window int_of_decimal strip_blanks
           nargsort_first_first (argsort_by_permutes false) sample_document
           _ parse_sample_document_first_first).
Defined.

Lemma parse_results_empty_iff_witness :
  argsort_permutes nargsort_first_first
  /\ exists df,
       parse_results_from_json int_of_decimal strip_blanks
         nargsort_first_first sample_document = Ok df
       /\ List.length (frame_rows df) = 4%nat
       /\ df_empty df = false.
Proof.
  split; [apply argsort_by_permutes|].
  destruct (parse_results_empty_iff int_of_decimal strip_blanks
              nargsort_first_first (argsort_by_permutes false)
              sample_document _ parse_sample_document_first_first)
    as (results & items & Hget & Hiter & Hlen & _).
  injection Hget as <-. injection Hiter as <-.
  eexists. split; [exact parse_sample_document_first_first|].
  split; [exact Hlen|reflexivity].
Defined.

Lemma parse_results_odd_results_witness :
  dict_get String.eqb [("Results", JStr "DNF")] "Results"
  = Some (JStr "DNF")
  /\ parse_results_from_json int_of_decimal strip_blanks nargsort_first_first
       (JDict [("Results", JStr "DNF")])
     = Raise AttributeError.
Proof.
  split; [reflexivity|].
  apply (parse_results_odd_results int_of_decimal strip_blanks
           nargsort_first_first [("Results", JStr "DNF")] (JStr "DNF")
           eq_refl).
  left. now exists "D"%char, "NF".
Defined.

(** ** Points aggregator: order of the rows, totals, concatenation *)

(** X6. The aggregator's result does not depend on the order of the input
    rows: two frames holding the same rows in different orders give equal
    outputs, whatever the sort does with ties. *)
Theorem compute_points_row_order_irrelevant
    (nargsort : list Z -> bool -> list nat) (rows rows' : list (Row string)) :
  Permutation rows rows' ->
  compute_points_by_nation nargsort (Frame rows)
  = compute_points_by_nation nargsort (Frame rows').
Proof.
  intros Hperm. unfold compute_points_by_nation.
  rewrite (groupby_sum_of_permutation (with_points rows) (with_points rows'));
    [reflexivity|].
  unfold with_points. now apply Permutation_map.
Qed.

Lemma compute_points_row_order_irrelevant_witness :
  Permutation sample_rows (rev sample_rows)
  /\ compute_points_by_nation nargsort_last_first (Frame sample_rows)
     = compute_points_by_nation nargsort_last_first
         (Frame (rev sample_rows)).
Proof.
  split; [apply Permutation_rev|].
  apply (compute_points_row_order_irrelevant nargsort_last_first
           sample_rows (rev sample_rows)).
  apply Permutation_rev.
Defined.

Lemma Zsum_app (l l' : list Z) : Zsum (l ++ l') = Zsum l + Zsum l'.
Proof. induction l as [|x l IH]; cbn [app Zsum]; [reflexivity|lia]. Qed.

Lemma Zsum_map_bounds {A : Type} (f : A -> Z) (lo hi : Z) (l : list A) :
  Forall (fun a => lo <= f a <= hi) l ->
  lo * Z.of_nat (List.length l) <= Zsum (map f l)
  <= hi * Z.of_nat (List.length l).
Proof.
  induction 1 as [|a l Ha _ IH]; cbn [map Zsum List.length]; lia.
Qed.

Lemma rank_points_in_window (rank : Z) :
  1 <= rank <= 30 -> 1 <= rank_points rank <= 100.
Proof.
  intros H. destruct (FIS_POINTS_defined rank H) as [p Hp].
  unfold rank_points. rewrite Hp. apply (FIS_POINTS_inside _ _ Hp).
Qed.

Lemma total_of_permutation (nation : string) (l l' : list NationTotal) :
  Permutation l l' -> total_of nation l = total_of nation l'.
Proof.
  intros Hperm. unfold total_of. apply Zsum_permutation, Permutation_map.
  induction Hperm as [|t l l' _ IH|t u l|l l' l'' _ IH1 _ IH2]; cbn.
  - constructor.
  - destruct (String.eqb (by_Nation t) nation); [now constructor|exact IH].
  - destruct (String.eqb (by_Nation t) nation),
             (String.eqb (by_Nation u) nation); try reflexivity.
    apply perm_swap.
  - now transitivity
      (filter (fun t => String.eqb (by_Nation t) nation) l').
Qed.

Lemma group_sum_absent (pairs : list (string * Z)) (nation : string) :
  ~ In nation (map fst pairs) -> group_sum pairs nation = 0.
Proof.
  unfold group_sum. induction pairs as [|[n v] pairs IH]; cbn;
    [reflexivity|].
  intros Hout. destruct (String.eqb_spec n nation) as [->|_].
  - exfalso. apply Hout. now left.
  - apply IH. intros H. apply Hout. now right.
Qed.

Lemma total_of_groupby_sum (pairs : list (string * Z)) (nation : string) :
  total_of nation (groupby_sum pairs) = group_sum pairs nation.
Proof.
  unfold groupby_sum.
  assert (E : forall keys,
             total_of nation
               (map (fun key => mkTotal key (group_sum pairs key)) keys)
             = Zsum (map (fun key => if String.eqb nation key
                                     then group_sum pairs nation else 0)
                       keys)).
  { unfold total_of. induction keys as [|key keys IH]; cbn; [reflexivity|].
    rewrite (String.eqb_sym key nation).
    destruct (String.eqb_spec nation key) as [->|_]; cbn; now rewrite IH. }
  rewrite E. destruct (in_dec string_dec nation (group_keys pairs)) as [Hin|Hout].
  - apply Zsum_single_key; [apply group_keys_NoDup|exact Hin].
  - rewrite group_keys_In in Hout.
    rewrite (group_sum_absent pairs nation Hout). clear. induction (group_keys pairs) as [|k l IH]; cbn;
      [reflexivity|]. rewrite IH. now destruct (String.eqb nation k).
Qed.

Section AggregatorTotals.
Variable nargsort : list Z -> bool -> list nat.
Hypothesis nargsort_permutes : argsort_permutes nargsort.

Lemma total_of_compute (rows : list (Row string)) (nation : string) :
  total_of nation
    (sort_values nargsort Points false (groupby_sum (with_points rows)))
  = Zsum (map (fun r => rank_points (Rank r))
            (filter (fun r => String.eqb (Nation r) nation) rows)).
Proof.
  rewrite (total_of_permutation nation _ (groupby_sum (with_points rows)))
    by now apply sort_values_permutation.
  rewrite total_of_groupby_sum. apply group_sum_of_rows.
Qed.

Lemma compute_entry (rows : list (Row string)) (t : NationTotal) :
  In t (sort_values nargsort Points false (groupby_sum (with_points rows))) ->
  In (by_Nation t) (map Nation rows)
  /\ Points t
     = Zsum (map (fun r => rank_points (Rank r))
               (filter (fun r => String.eqb (Nation r) (by_Nation t)) rows)).
Proof.
  intros Ht.
  apply (Permutation_in _
           (sort_values_permutation nargsort nargsort_permutes Points false
              (groupby_sum (with_points rows)))) in Ht.
  unfold groupby_sum in Ht. apply in_map_iff in Ht as (key & <- & Hkey).
  cbn [Points by_Nation]. split; [|apply group_sum_of_rows].
  apply group_keys_In in Hkey. unfold with_points in Hkey.
  now rewrite map_map in Hkey.
Qed.

(** X7. Every nation total counts at least one row: its points lie between
    0 and 100 for each row of the nation, and are at least 1 for each row
    when all ranks are in 1..30, so that no nation is listed with 0 points.
    The output is empty exactly when there are no rows. *)
Theorem compute_points_totals_bounds (rows : list (Row string)) :
  exists totals,
    compute_points_by_nation nargsort (Frame rows) = Ok (Frame totals)
    /\ (totals = [] <-> rows = [])
    /\ (forall t, In t totals ->
          let n := Z.of_nat (List.length
                     (filter (fun r => String.eqb (Nation r) (by_Nation t))
                        rows)) in
          1 <= n /\ 0 <= Points t <= 100 * n
          /\ (Forall (fun r => 1 <= Rank r <= 30) rows -> n <= Points t)).
Proof.
  eexists. split; [reflexivity|]. split.
  - pose proof (sort_values_permutation nargsort nargsort_permutes Points false
                  (groupby_sum (with_points rows))) as Hperm.
    split.
    + intros E. rewrite E in Hperm. apply Permutation_nil in Hperm.
      apply (f_equal (map by_Nation)) in Hperm.
      rewrite groupby_sum_keys in Hperm.
      destruct rows as [|r rows]; [reflexivity|].
      assert (Hin : In (Nation r) (group_keys (with_points (r :: rows))))
        by (apply group_keys_In; now left).
      rewrite Hperm in Hin. contradiction.
    + intros ->. apply Permutation_sym in Hperm. cbn in Hperm.
      now apply Permutation_nil in Hperm.
  - intros t Ht. apply compute_entry in Ht as [Hin ->]. cbn zeta.
    set (mine := filter (fun r => String.eqb (Nation r) (by_Nation t)) rows).
    assert (Hne : (1 <= List.length mine)%nat).
    { apply in_map_iff in Hin as (r & E & Hr).
      assert (Hm : In r mine).
      { apply filter_In. split; [exact Hr|].
        rewrite E. apply String.eqb_refl. }
      destruct mine; [contradiction|cbn; lia]. }
    split; [lia|]. split.
    + pose proof (Zsum_map_bounds (fun r => rank_points (Rank r)) 0 100 mine)
        as Hb.
      assert (Hall : Forall (fun r => 0 <= rank_points (Rank r) <= 100) mine)
        by (apply Forall_forall; intros; apply rank_points_bounds).
      specialize (Hb Hall). lia.
    + intros Hwin.
      pose proof (Zsum_map_bounds (fun r => rank_points (Rank r)) 1 100 mine)
        as Hb.
      assert (Hall : Forall (fun r => 1 <= rank_points (Rank r) <= 100) mine).
      { apply Forall_forall. intros r Hr. apply rank_points_in_window.
        apply filter_In in Hr as [Hr _].
        rewrite Forall_forall in Hwin. now apply Hwin. }
      specialize (Hb Hall). lia.
Qed.

(** X8. Aggregation is additive: for every nation, the points it gets
    from two lists of rows put together are the sum of the points it gets
    from each list (0 standing for a nation that is not in an output). *)
Theorem compute_points_additive (rows rows' : list (Row string)) :
  exists totals totals' together,
    compute_points_by_nation nargsort (Frame rows) = Ok (Frame totals)
    /\ compute_points_by_nation nargsort (Frame rows') = Ok (Frame totals')
    /\ compute_points_by_nation nargsort (Frame (rows ++ rows'))
       = Ok (Frame together)
    /\ forall nation,
         total_of nation together
         = total_of nation totals + total_of nation totals'.
Proof.
  do 3 eexists. repeat (split; [reflexivity|]).
  intros nation. rewrite !total_of_compute.
  now rewrite filter_app, map_app, Zsum_app.
Qed.
End AggregatorTotals.

Lemma compute_points_totals_bounds_witness :
  argsort_permutes nargsort_first_first
  /\ exists totals,
       compute_points_by_nation nargsort_first_first (Frame sample_rows)
       = Ok (Frame totals)
       /\ (totals = [] <-> sample_rows = [])
       /\ (forall t, In t totals ->
             let n := Z.of_nat (List.length
                        (filter (fun r => String.eqb (Nation r) (by_Nation t))
                           sample_rows)) in
             1 <= n /\ 0 <= Points t <= 100 * n
             /\ (Forall (fun r => 1 <= Rank r <= 30) sample_rows ->
                 n <= Points t)).
Proof.
  split; [apply argsort_by_permutes|].
  apply (compute_points_totals_bounds nargsort_first_first
           (argsort_by_permutes false) sample_rows).
Defined.

Lemma compute_points_additive_witness :
  argsort_permutes nargsort_first_first
  /\ exists totals totals' together,
       compute_points_by_nation nargsort_first_first (Frame sample_rows)
       = Ok (Frame totals)
       /\ compute_points_by_nation nargsort_first_first
            (Frame [mkRow 2 "AUT" "R8"; mkRow 4 "NOR" "R9"])
          = Ok (Frame totals')
       /\ compute_points_by_nation nargsort_first_first
            (Frame (sample_rows ++ [mkRow 2 "AUT" "R8"; mkRow 4 "NOR" "R9"]))
          = Ok (Frame together)
       /\ forall nation,
            total_of nation together
            = total_of nation totals + total_of nation totals'.
Proof.
  split; [apply argsort_by_permutes|].
  apply (compute_points_additive nargsort_first_first
           (argsort_by_permutes false) sample_rows
           [mkRow 2 "AUT" "R8"; mkRow 4 "NOR" "R9"]).
Defined.

(** ** Ties are the only freedom of the sort *)

(** X9. When no two nations have equal totals, the aggregator's output is
    the same for every sort that keeps the guarantees: the order of the
    output is then fixed by the descending points alone. *)
Theorem compute_points_determined_without_ties
    (sort1 sort2 : list Z -> bool -> list nat) (rows : list (Row string))
    (totals : list NationTotal) :
  argsort_permutes sort1 -> argsort_orders sort1 ->
  argsort_permutes sort2 -> argsort_orders sort2 ->
  compute_points_by_nation sort1 (Frame rows) = Ok (Frame totals) ->
  NoDup (map Points totals) ->
  compute_points_by_nation sort2 (Frame rows) = Ok (Frame totals).
Proof.
  intros Hp1 Ho1 Hp2 Ho2 H Hnd. cbn in H. injection H as <-. cbn.
  do 2 f_equal. symmetry. apply sort_values_unique; auto.
  eapply Permutation_NoDup; [|exact Hnd].
  apply Permutation_map. now apply sort_values_permutation.
Qed.

Lemma compute_points_determined_without_ties_witness :
  (argsort_permutes nargsort_first_first
   /\ argsort_orders nargsort_first_first
   /\ argsort_permutes nargsort_last_first
   /\ argsort_orders nargsort_last_first)
  /\ compute_points_by_nation nargsort_first_first
       (Frame [mkRow 3 "SUI" "R1"; mkRow 1 "AUT" "R2"; mkRow 7 "SUI" "R4"])
     = Ok (Frame [mkTotal "AUT" 100; mkTotal "SUI" 96])
  /\ NoDup (map Points [mkTotal "AUT" 100; mkTotal "SUI" 96])
  /\ compute_points_by_nation nargsort_last_first
       (Frame [mkRow 3 "SUI" "R1"; mkRow 1 "AUT" "R2"; mkRow 7 "SUI" "R4"])
     = Ok (Frame [mkTotal "AUT" 100; mkTotal "SUI" 96]).
Proof.
  assert (Hnd : NoDup (map Points [mkTotal "AUT" 100; mkTotal "SUI" 96])).
  { cbn. repeat constructor; cbn; intuition discriminate. }
  split; [repeat split; (apply argsort_by_permutes || apply argsort_by_orders)|].
  split; [reflexivity|]. split; [exact Hnd|].
  apply (compute_points_determined_without_ties nargsort_first_first
           nargsort_last_first
           [mkRow 3 "SUI" "R1"; mkRow 1 "AUT" "R2"; mkRow 7 "SUI" "R4"]
           [mkTotal "AUT" 100; mkTotal "SUI" 96]
           (argsort_by_permutes false) (argsort_by_orders false)
           (argsort_by_permutes true) (argsort_by_orders true)
           eq_refl Hnd).
Defined.

Lemma parse_results_with_sort (int_of_str : string -> option Z)
    (str_strip : string -> string) (nargsort : list Z -> bool -> list nat)
    (data results : json) (items : list json) (rows : list (Row json)) :
  py_get data "Results" (JList []) = Ok results ->
  py_iter results = Ok items ->
  for_items int_of_str str_strip items [] = Ok rows ->
  parse_results_from_json int_of_str str_strip nargsort data
  = Ok match rows with
       | [] => NoColumns
       | _ :: _ => Frame (sort_values nargsort Rank true rows)
       end.
Proof.
  intros Hget Hiter Hfor. unfold parse_results_from_json.
  rewrite Hget. cbn [bind]. rewrite Hiter. cbn [bind]. rewrite Hfor.
  cbn [bind]. now destruct rows.
Qed.

Lemma StronglySorted_lt_le {A : Type} (key : A -> Z) (l : list A) :
  StronglySorted (fun a b => key a < key b) l ->
  StronglySorted (fun a b => key_order true (key a) (key b)) l
  /\ NoDup (map key l).
Proof.
  induction 1 as [|a l _ [IHs IHn] Ha]; cbn; split; try constructor; auto.
  - eapply Forall_impl; [|exact Ha]. cbn. intros; lia.
  - intros Hin. apply in_map_iff in Hin as (b & E & Hb).
    rewrite Forall_forall in Ha. specialize (Ha _ Hb). lia.
Qed.

(** X10. When the returned rows have pairwise different ranks, the
    normalizer's result is the same for every sort that keeps the
    guarantees; and entries that arrive in strictly ascending rank order
    come out in exactly that order. *)
Theorem parse_results_determined_without_ties
    (int_of_str : string -> option Z) (str_strip : string -> string)
    (sort1 sort2 : list Z -> bool -> list nat) (data : json)
    (df : DataFrame (Row json)) :
  argsort_permutes sort1 -> argsort_orders sort1 ->
  argsort_permutes sort2 -> argsort_orders sort2 ->
  parse_results_from_json int_of_str str_strip sort1 data = Ok df ->
  (NoDup (map Rank (frame_rows df)) ->
   parse_results_from_json int_of_str str_strip sort2 data = Ok df)
  /\ (forall results items rows,
        py_get data "Results" (JList []) = Ok results ->
        py_iter results = Ok items ->
        for_items int_of_str str_strip items [] = Ok rows ->
        StronglySorted (fun a b => Rank a < Rank b) rows ->
        frame_rows df = rows).
Proof.
  intros Hp1 Ho1 Hp2 Ho2 H.
  apply parse_results_returns in H
    as (results & items & rows & Hget & Hiter & Hfor & ->).
  split.
  - intros Hnd.
    rewrite (parse_results_with_sort _ _ sort2 _ _ _ _ Hget Hiter Hfor).
    destruct rows as [|row rows]; [reflexivity|].
    do 2 f_equal. apply sort_values_unique; auto.
    eapply Permutation_NoDup; [|exact Hnd].
    apply Permutation_map. cbn [frame_rows].
    now apply sort_values_permutation.
  - intros results' items' rows' Hget' Hiter' Hfor' Hsorted.
    rewrite Hget in Hget'. injection Hget' as <-.
    rewrite Hiter in Hiter'. injection Hiter' as <-.
    rewrite Hfor in Hfor'. injection Hfor' as <-.
    destruct rows as [|row rows]; [reflexivity|]. cbn [frame_rows].
    apply StronglySorted_lt_le in Hsorted as [Hle Hnd].
    apply (StronglySorted_unique
             (fun a b => key_order true (Rank a) (Rank b))).
    + intros x y Hx Hy Hxy Hyx.
      apply (NoDup_map_injective Rank (row :: rows)); auto.
      * now apply (Permutation_in _
                     (sort_values_permutation sort1 Hp1 Rank true _)).
      * now apply (Permutation_in _
                     (sort_values_permutation sort1 Hp1 Rank true _)).
      * unfold key_order in *. lia.
    + now apply sort_values_permutation.
    + now apply sort_values_sorted.
    + exact Hle.
Qed.

Lemma parse_results_determined_without_ties_witness :
  (argsort_permutes nargsort_first_first
   /\ argsort_orders nargsort_first_first
   /\ argsort_permutes nargsort_last_first
   /\ argsort_orders nargsort_last_first)
  /\ parse_results_from_json int_of_decimal strip_blanks nargsort_first_first
       (JDict [("Results", JList (map race_entry race_last_14))])
     = Ok (Frame (map race_row race_last_14))
  /\ NoDup (map Rank (map race_row race_last_14))
  /\ parse_results_from_json int_of_decimal strip_blanks nargsort_last_first
       (JDict [("Results", JList (map race_entry race_last_14))])
     = Ok (Frame (map race_row race_last_14)).
Proof.
  assert (Hparse : parse_results_from_json int_of_decimal strip_blanks
                     nargsort_first_first
                     (JDict [("Results", JList (map race_entry race_last_14))])
                   = Ok (Frame (map race_row race_last_14)))
    by (vm_compute; reflexivity).
  assert (Hnd : NoDup (map Rank (map race_row race_last_14))).
  { cbn. repeat (constructor; [cbn; intuition discriminate|]). constructor. }
  split; [repeat split; (apply argsort_by_permutes || apply argsort_by_orders)|].
  split; [exact Hparse|]. split; [exact Hnd|].
  apply (parse_results_determined_without_ties int_of_decimal strip_blanks
           nargsort_first_first nargsort_last_first _ _
           (argsort_by_permutes false) (argsort_by_orders false)
           (argsort_by_permutes true) (argsort_by_orders true) Hparse).
  exact Hnd.
Defined.

(** ** From the normalizer to the aggregator *)

Lemma text_rows_ranks (rows : list (Row json)) (trows : list (Row string)) :
  text_rows rows = Some trows -> map Rank trows = map Rank rows.
Proof.
  revert trows. induction rows as [|r rows IH]; intros trows; cbn.
  - now intros [= <-].
  - unfold text_row. destruct (Nation r); try discriminate.
    destruct (Name r); try discriminate.
    destruct (text_rows rows) as [ts|]; [|discriminate].
    intros [= <-]. cbn. now rewrite (IH ts).
Qed.

Section Pipeline.
Variable int_of_str : string -> option Z.
Variable str_strip : string -> string.
Variable nargsort : list Z -> bool -> list nat.
Hypothesis nargsort_permutes : argsort_permutes nargsort.

Lemma parse_rows_selected (data : json) (df : DataFrame (Row json)) :
  parse_results_from_json int_of_str str_strip nargsort data = Ok df ->
  exists results items,
    py_get data "Results" (JList []) = Ok results
    /\ py_iter results = Ok items
    /\ Permutation (map rank_nation (frame_rows df))
         (flat_map (selection int_of_str) items).
Proof.
  intros H.
  apply (parse_results_rows int_of_str str_strip nargsort nargsort_permutes)
    in H as (results & items & rows & Hget & Hiter & Hfor & Hperm).
  exists results, items. repeat split; try assumption.
  rewrite <- (for_items_selection _ _ _ _ Hfor). now apply Permutation_map.
Qed.

Lemma selected_rank_in_window (items : list json) (p : Z * json) :
  In p (flat_map (selection int_of_str) items) -> 1 <= fst p <= 30.
Proof.
  intros Hin. apply in_flat_map in Hin as (item & _ & Hsel).
  destruct p as [rank nation].
  now apply selection_iff
    in Hsel as (kvs & rank_val & _ & _ & _ & Hrange & _).
Qed.

(** X11. The aggregator applied to what the normalizer returned.  On the
    empty result it would raise KeyError, which the caller's test of
    [df.empty] prevents.  On a non-empty result it returns a non-empty
    frame in which every nation has at least one point, and the points add
    up to the table's points for the ranks of the selected entries. *)
Theorem parse_then_compute (data : json) (df : DataFrame (Row json))
    (tdf : DataFrame (Row string)) :
  parse_results_from_json int_of_str str_strip nargsort data = Ok df ->
  text_frame df = Some tdf ->
  (df_empty df = true ->
   compute_points_by_nation nargsort tdf = Raise KeyError)
  /\ (df_empty df = false ->
      exists results items totals,
        py_get data "Results" (JList []) = Ok results
        /\ py_iter results = Ok items
        /\ compute_points_by_nation nargsort tdf = Ok (Frame totals)
        /\ totals <> []
        /\ Forall (fun t => 1 <= Points t) totals
        /\ Zsum (map Points totals)
           = Zsum (map (fun p => rank_points (fst p))
                     (flat_map (selection int_of_str) items))).
Proof.
  intros Hparse Htext.
  pose proof (parse_rows_selected _ _ Hparse)
    as (results & items & Hget & Hiter & Hsel).
  pose proof Hparse as Hret.
  apply parse_results_returns in Hret
    as (results' & items' & rows & _ & _ & _ & Hdf).
  split.
  - intros Hempty. destruct rows as [|row rows].
    + subst df. cbn in Htext. now injection Htext as <-.
    + subst df. unfold df_empty in Hempty. cbn [frame_rows] in Hempty.
      pose proof (sort_values_permutation nargsort nargsort_permutes Rank true
                    (row :: rows)) as Hp.
      destruct (sort_values nargsort Rank true (row :: rows));
        [|discriminate].
      apply Permutation_nil in Hp. discriminate.
  - intros Hfull. destruct df as [|srows]; [discriminate|].
    cbn in Htext. destruct (text_rows srows) as [trows|] eqn:Ht;
      [|discriminate].
    injection Htext as <-. cbn [frame_rows] in Hsel.
    pose proof (text_rows_ranks _ _ Ht) as Hranks.
    assert (Hwin : Forall (fun r => 1 <= Rank r <= 30) trows).
    { apply Forall_forall. intros r Hr.
      apply (in_map Rank) in Hr. rewrite Hranks in Hr.
      apply in_map_iff in Hr as (r' & E & Hr'). rewrite <- E.
      apply (in_map rank_nation) in Hr'.
      apply (Permutation_in _ Hsel) in Hr'.
      now apply selected_rank_in_window in Hr'. }
    exists results, items. eexists.
    split; [exact Hget|]. split; [exact Hiter|]. split; [reflexivity|].
    pose proof (sort_values_permutation nargsort nargsort_permutes Points false
                  (groupby_sum (with_points trows))) as Hperm.
    split; [|split].
    + intros E. rewrite E in Hperm. apply Permutation_nil in Hperm.
      apply (f_equal (map by_Nation)) in Hperm.
      rewrite groupby_sum_keys in Hperm.
      unfold df_empty in Hfull. cbn [frame_rows] in Hfull.
      destruct srows as [|sr srows]; [discriminate|].
      destruct trows as [|r trows]; [discriminate|].
      assert (Hin : In (Nation r) (group_keys (with_points (r :: trows))))
        by (apply group_keys_In; now left).
      rewrite Hperm in Hin. contradiction.
    + apply Forall_forall. intros t Hin.
      apply (compute_entry nargsort nargsort_permutes) in Hin as [Hn ->].
      set (mine := filter (fun r => String.eqb (Nation r) (by_Nation t))
                     trows).
      assert (Hne : (1 <= List.length mine)%nat).
      { apply in_map_iff in Hn as (r & E & Hr).
        assert (Hm : In r mine).
        { apply filter_In. split; [exact Hr|].
          rewrite E. apply String.eqb_refl. }
        destruct mine; [contradiction|cbn; lia]. }
      pose proof (Zsum_map_bounds (fun r => rank_points (Rank r)) 1 100 mine)
        as Hb.
      assert (Hall : Forall (fun r => 1 <= rank_points (Rank r) <= 100) mine).
      { apply Forall_forall. intros r Hr. apply rank_points_in_window.
        apply filter_In in Hr as [Hr _].
        rewrite Forall_forall in Hwin. now apply Hwin. }
      specialize (Hb Hall). lia.
    + rewrite (Zsum_permutation _ _ (Permutation_map Points Hperm)).
      rewrite groupby_sum_total. unfold with_points. rewrite map_map. cbn.
      rewrite <- (map_map Rank rank_points), Hranks.
      rewrite <- (map_map fst rank_points (flat_map _ items)).
      apply Zsum_permutation, Permutation_map.
      apply (Permutation_map fst) in Hsel.
      now rewrite map_map in Hsel.
Qed.
End Pipeline.

Lemma parse_then_compute_witness :
  argsort_permutes nargsort_first_first
  /\ parse_results_from_json int_of_decimal strip_blanks nargsort_first_first
       sample_document
     = Ok (Frame [mkRow 1 (JStr "AUT") (JStr "A");
                  mkRow 2 (JStr "AUT") (JStr "B");
                  mkRow 2 (JStr "ITA") (JStr "D");
                  mkRow 5 (JStr "SUI") (JStr "Jane Doe")])
  /\ exists totals,
       compute_points_by_nation nargsort_first_first
         (Frame [mkRow 1 "AUT" "A"; mkRow 2 "AUT" "B"; mkRow 2 "ITA" "D";
                 mkRow 5 "SUI" "Jane Doe"])
       = Ok (Frame totals)
       /\ totals <> []
       /\ Forall (fun t => 1 <= Points t) totals
       /\ Zsum (map Points totals) = 305.
Proof.
  split; [apply argsort_by_permutes|].
  split; [exact parse_sample_document_first_first|].
  destruct (parse_then_compute int_of_decimal strip_blanks
              nargsort_first_first (argsort_by_permutes false)
              sample_document _
              (Frame [mkRow 1 "AUT" "A"; mkRow 2 "AUT" "B"; mkRow 2 "ITA" "D";
                      mkRow 5 "SUI" "Jane Doe"])
              parse_sample_document_first_first eq_refl) as [_ H].
  destruct (H eq_refl)
    as (results & items & totals & Hget & Hiter & Hc & Hne & Hpos & Hsum).
  injection Hget as <-. injection Hiter as <-.
  exists totals. repeat split; assumption.
Defined.

(** ** Record discoverer: searching a part of the tree *)

Lemma find_result_items_filter (v : json) :
  _find_result_items v = filter is_candidate (dfs_preorder v).
Proof.
  induction v as [| | | | |xs IH|kvs IH] using json_ind; try reflexivity.
  - rewrite find_result_items_list. cbn [dfs_preorder filter is_candidate].
    rewrite filter_flat_map. now apply flat_map_ext_Forall.
  - rewrite find_result_items_dict. cbn [dfs_preorder filter].
    rewrite filter_flat_map, (flat_map_ext_Forall _ _ _ IH).
    now destruct (is_candidate (JDict kvs)).
Qed.

Lemma dfs_preorder_subtree (v u : json) :
  In u (dfs_preorder v) -> incl (dfs_preorder u) (dfs_preorder v).
Proof.
  induction v as [| | | | |xs IH|kvs IH] using json_ind;
    try (intros [<-|[]]; apply incl_refl).
  - intros [<-|Hin]; [apply incl_refl|].
    cbn [dfs_preorder]. apply incl_tl.
    apply in_flat_map in Hin as (x & Hx & Hu).
    rewrite Forall_forall in IH. intros w Hw.
    apply in_flat_map. exists x. split; [exact Hx|].
    now apply (IH x Hx Hu).
  - intros [<-|Hin]; [apply incl_refl|].
    cbn [dfs_preorder]. apply incl_tl.
    apply in_flat_map in Hin as (kv & Hkv & Hu).
    rewrite Forall_forall in IH. intros w Hw.
    apply in_flat_map. exists kv. split; [exact Hkv|].
    now apply (IH kv Hkv Hu).
Qed.

(** X12. Searching a part of a tree finds nothing the search of the whole
    tree misses: for every node of the tree, each record found below it is
    also found from the root.  In particular the records found inside a
    found record are themselves in the result. *)
Theorem find_result_items_subtree (v u : json) :
  In u (dfs_preorder v) ->
  incl (_find_result_items u) (_find_result_items v)
  /\ (In u (_find_result_items v) ->
      exists rest, _find_result_items u = u :: rest).
Proof.
  intros Hu. split.
  - rewrite !find_result_items_filter. intros w Hw.
    apply filter_In in Hw as [Hw Hc]. apply filter_In. split; [|exact Hc].
    now apply (dfs_preorder_subtree v u).
  - rewrite (find_result_items_filter v). intros Hin.
    apply filter_In in Hin as [_ Hc].
    destruct u; try discriminate.
    rewrite find_result_items_dict, Hc. cbn. now eexists.
Qed.

Lemma find_result_items_subtree_witness :
  let inner := JDict [("place", JInt 2); ("country", JStr "SUI")] in
  let outer :=
    JDict [("rank", JInt 1); ("nation", JStr "AUT");
           ("team", JList [inner])] in
  In outer (dfs_preorder (JList [JInt 7; outer]))
  /\ incl (_find_result_items outer)
       (_find_result_items (JList [JInt 7; outer])).
Proof.
  cbv zeta. split; [cbn; auto|].
  apply (find_result_items_subtree
           (JList [JInt 7;
                   JDict [("rank", JInt 1); ("nation", JStr "AUT");
                          ("team",
                           JList [JDict [("place", JInt 2);
                                         ("country", JStr "SUI")]])]])).
  cbn. auto.
Defined.

(** ** Result normalizer: what of the document matters *)

Section NormalizerInputs.
Variable int_of_str : string -> option Z.
Variable str_strip : string -> string.
Variable nargsort : list Z -> bool -> list nat.
Hypothesis nargsort_permutes : argsort_permutes nargsort.
Hypothesis nargsort_orders : argsort_orders nargsort.

Lemma item_name_fields (kvs : list (string * json)) :
  item_name str_strip (JDict kvs)
  = if truthy (field kvs "DisplayName") then Ok (field kvs "DisplayName")
    else
      prefix <- py_add_str (py_or (field kvs "FirstName") (JStr ""))
                  (JStr " ") ;;
      full <- py_add_str (JStr prefix)
                (py_or (field kvs "LastName") (JStr "")) ;;
      Ok (JStr (str_strip full)).
Proof. reflexivity. Qed.

Lemma loop_body_same_fields (item item' : json) :
  same_fields item item' ->
  loop_body int_of_str str_strip item = loop_body int_of_str str_strip item'.
Proof.
  intros (kvs & kvs' & -> & -> & H).
  rewrite !loop_body_dict, !item_name_fields.
  rewrite (H "RankingFinal"), (H "NationCC3"), (H "DisplayName"),
          (H "FirstName"), (H "LastName");
    cbn; auto 10.
Qed.

Lemma for_items_same_fields (items items' : list json)
    (rows : list (Row json)) :
  Forall2 same_fields items items' ->
  for_items int_of_str str_strip items rows
  = for_items int_of_str str_strip items' rows.
Proof.
  intros H. revert rows.
  induction H as [|item item' items items' Hsame _ IH]; intros rows;
    [reflexivity|].
  cbn. rewrite (loop_body_same_fields _ _ Hsame).
  destruct (loop_body int_of_str str_strip item'); cbn; [apply IH|reflexivity].
Qed.

(** X13. Only five keys of an entry matter (RankingFinal, NationCC3,
    DisplayName, FirstName, LastName), and only the key Results of the
    document: two documents whose Results lists hold, entry by entry,
    objects that agree on these keys give the same result, whatever other
    keys they carry and in whatever order. *)
Theorem parse_results_reads_five_keys (kvs kvs' : list (string * json))
    (items items' : list json) :
  dict_get String.eqb kvs "Results" = Some (JList items) ->
  dict_get String.eqb kvs' "Results" = Some (JList items') ->
  Forall2 same_fields items items' ->
  parse_results_from_json int_of_str str_strip nargsort (JDict kvs)
  = parse_results_from_json int_of_str str_strip nargsort (JDict kvs').
Proof.
  intros H H' Hsame. unfold parse_results_from_json, py_get.
  rewrite H, H'. cbn [bind py_iter].
  now rewrite (for_items_same_fields items items' [] Hsame).
Qed.

Lemma for_items_flat_map (items : list json) (rows out : list (Row json)) :
  for_items int_of_str str_strip items rows = Ok out ->
  out = rows ++ flat_map (rows_of_item int_of_str str_strip) items
  /\ Forall (fun item => exists a,
                loop_body int_of_str str_strip item = Ok a) items.
Proof.
  revert rows. induction items as [|item items IH]; intros rows; cbn.
  - intros [= <-]. split; [now rewrite app_nil_r|constructor].
  - unfold bind at 1, rows_of_item at 1.
    destruct (loop_body int_of_str str_strip item) as [a|e] eqn:E;
      [|discriminate].
    intros H. apply IH in H as [-> Hall]. split.
    + destruct a; cbn; now rewrite <- ?app_assoc.
    + constructor; [now exists a|exact Hall].
Qed.

Lemma for_items_of_flat_map (items : list json) (rows : list (Row json)) :
  Forall (fun item => exists a,
            loop_body int_of_str str_strip item = Ok a) items ->
  for_items int_of_str str_strip items rows
  = Ok (rows ++ flat_map (rows_of_item int_of_str str_strip) items).
Proof.
  intros H. revert rows.
  induction H as [|item items [a E] _ IH]; intros rows; cbn.
  - now rewrite app_nil_r.
  - unfold rows_of_item at 1. rewrite E. cbn [bind]. rewrite IH.
    destruct a; cbn; now rewrite <- ?app_assoc.
Qed.

(** X14. The order of the entries of Results matters only through ties:
    if the call returns for a list of entries, it returns for every
    rearrangement of the list, with the same rows up to order, and with
    the very same frame when no two rows have the same rank. *)
Theorem parse_results_entry_order (kvs kvs' : list (string * json))
    (items items' : list json) (df : DataFrame (Row json)) :
  dict_get String.eqb kvs "Results" = Some (JList items) ->
  dict_get String.eqb kvs' "Results" = Some (JList items') ->
  Permutation items items' ->
  parse_results_from_json int_of_str str_strip nargsort (JDict kvs) = Ok df ->
  exists df',
    parse_results_from_json int_of_str str_strip nargsort (JDict kvs')
    = Ok df'
    /\ Permutation (frame_rows df) (frame_rows df')
    /\ (NoDup (map Rank (frame_rows df)) -> df' = df).
Proof.
  intros H H' Hperm Hparse.
  apply parse_results_returns in Hparse
    as (results & its & rows & Hget & Hiter & Hfor & ->).
  cbn in Hget. rewrite H in Hget. injection Hget as <-.
  injection Hiter as <-.
  apply for_items_flat_map in Hfor as [-> Hall]. cbn [app] in *.
  set (f := rows_of_item int_of_str str_strip) in *.
  assert (Hfor' : for_items int_of_str str_strip items' []
                  = Ok (flat_map f items')).
  { apply (for_items_of_flat_map items' []).
    eapply Permutation_Forall; eassumption. }
  assert (Hget' : py_get (JDict kvs') "Results" (JList [])
                  = Ok (JList items'))
    by (cbn; now rewrite H').
  rewrite (parse_results_with_sort _ _ nargsort _ _ _ _ Hget' eq_refl Hfor').
  assert (Hrows : Permutation (flat_map f items) (flat_map f items'))
    by now apply Permutation_flat_map.
  eexists. split; [reflexivity|].
  pose proof (sort_values_permutation nargsort nargsort_permutes
                (@Rank json) true) as Hsort.
  destruct (flat_map f items) as [|r rows] eqn:E;
    destruct (flat_map f items') as [|r' rows'] eqn:E'.
  - split; [constructor|reflexivity].
  - apply Permutation_nil in Hrows. discriminate.
  - apply Permutation_sym, Permutation_nil in Hrows. discriminate.
  - cbn [frame_rows]. split; [now rewrite !Hsort|].
    intros Hnd. f_equal. symmetry.
    apply (StronglySorted_unique
             (fun a b => key_order true (Rank a) (Rank b))).
    + intros x y Hx Hy Hxy Hyx.
      apply (NoDup_map_injective Rank
               (sort_values nargsort Rank true (r :: rows))); auto.
      unfold key_order in *. lia.
    + now rewrite !Hsort.
    + now apply sort_values_sorted.
    + now apply sort_values_sorted.
Qed.
End NormalizerInputs.

Lemma parse_results_reads_five_keys_witness :
  Forall2 same_fields
    [JDict [("RankingFinal", JInt 3); ("NationCC3", JStr "AUT")]]
    [JDict [("Bib", JInt 7); ("NationCC3", JStr "AUT");
            ("RankingFinal", JInt 3)]]
  /\ parse_results_from_json int_of_decimal strip_blanks nargsort_first_first
       (JDict [("Results",
                JList [JDict [("RankingFinal", JInt 3);
                              ("NationCC3", JStr "AUT")]])])
     = parse_results_from_json int_of_decimal strip_blanks
         nargsort_first_first
         (JDict [("Season", JInt 2025);
                 ("Results",
                  JList [JDict [("Bib", JInt 7); ("NationCC3", JStr "AUT");
                                ("RankingFinal", JInt 3)]])]).
Proof.
  assert (Hsame : Forall2 same_fields
            [JDict [("RankingFinal", JInt 3); ("NationCC3", JStr "AUT")]]
            [JDict [("Bib", JInt 7); ("NationCC3", JStr "AUT");
                    ("RankingFinal", JInt 3)]]).
  { constructor; [|constructor]. do 2 eexists.
    split; [reflexivity|]. split; [reflexivity|].
    intros key Hkey. cbn in Hkey.
    repeat (destruct Hkey as [<-|Hkey]; [reflexivity|]). contradiction. }
  split; [exact Hsame|].
  apply (parse_results_reads_five_keys int_of_decimal strip_blanks
           nargsort_first_first
           [("Results",
             JList [JDict [("RankingFinal", JInt 3);
                           ("NationCC3", JStr "AUT")]])]
           [("Season", JInt 2025);
            ("Results",
             JList [JDict [("Bib", JInt 7); ("NationCC3", JStr "AUT");
                           ("RankingFinal", JInt 3)]])]
           _ _ eq_refl eq_refl Hsame).
Defined.

Lemma parse_results_entry_order_witness :
  (argsort_permutes nargsort_first_first
   /\ argsort_orders nargsort_first_first)
  /\ Permutation (map race_entry race_last_14)
       (rev (map race_entry race_last_14))
  /\ parse_results_from_json int_of_decimal strip_blanks nargsort_first_first
       (JDict [("Results", JList (map race_entry race_last_14))])
     = Ok (Frame (map race_row race_last_14))
  /\ exists df',
       parse_results_from_json int_of_decimal strip_blanks
         nargsort_first_first
         (JDict [("Results", JList (rev (map race_entry race_last_14)))])
       = Ok df'
       /\ Permutation (map race_row race_last_14) (frame_rows df').
Proof.
  assert (Hparse : parse_results_from_json int_of_decimal strip_blanks
                     nargsort_first_first
                     (JDict [("Results", JList (map race_entry race_last_14))])
                   = Ok (Frame (map race_row race_last_14)))
    by (vm_compute; reflexivity).
  split; [split; [apply argsort_by_permutes|apply argsort_by_orders]|].
  split; [apply Permutation_rev|]. split; [exact Hparse|].
  destruct (parse_results_entry_order int_of_decimal strip_blanks
              nargsort_first_first (argsort_by_permutes false)
              (argsort_by_orders false)
              [("Results", JList (map race_entry race_last_14))]
              [("Results", JList (rev (map race_entry race_last_14)))]
              _ _ _ eq_refl eq_refl
              (Permutation_rev (map race_entry race_last_14)) Hparse)
    as (df' & Hparse' & Hperm & _).
  exists df'. split; [exact Hparse'|exact Hperm].
Defined.
